(** * Read path of the Buch backend

    Shallow embedding of [BuchReadService] (buch-read.service.ts) and of
    [BuchQueryResolver] (buch-query.resolver.ts).

    - ECMAScript numbers are IEEE 754 binary64 values ([spec_float] with
      precision 53 and maximal exponent 1024); identifiers are integers.
    - [async] methods become computations in the monad [Aktion]: they read an
      environment (database, file system), append to a trace of the calls made
      to the collaborators (query builder, [fs], [console]) and either throw an
      [Exception] or return a value.  Calls of the logger change neither the
      result nor the collaborators and are left out.
    - [QueryBuilder] (query-builder.ts) and the entity [Buch]
      (buch.entity.ts) are collaborators whose source is not part of the
      files embedded here; the service is embedded over an arbitrary
      [QueryBuilder], and a model of it written from the specification is
      given separately in [Module SpecQueryBuilder]. *)

From Stdlib Require Import ZArith NArith List String Ascii Bool Lia.
From Stdlib Require Import Sorting.Permutation.
From Stdlib Require Import Floats.SpecFloat.
Import ListNotations.

Local Open Scope string_scope.
Local Open Scope Z_scope.

(* ===================================================================== *)
(** * ECMAScript values used by the code *)
(* ===================================================================== *)

Module JS.

(** ** Strings *)

(** [String.prototype.includes]: [t] occurs somewhere in [s]. *)
Definition String_includes (s t : string) : bool :=
  match String.index 0 t s with
  | Some _ => true
  | None => false
  end.

(** [Array.prototype.includes] on an array of strings (strict equality). *)
Definition Array_includes (xs : list string) (x : string) : bool :=
  existsb (String.eqb x) xs.

(** The string of [k] copies of the code unit [c]. *)
Fixpoint repeat_char (c : ascii) (k : nat) : string :=
  match k with
  | O => EmptyString
  | S k' => String c (repeat_char c k')
  end.

(** ** Decimal digits of a non-negative integer *)

Definition digit_char (d : N) : ascii :=
  ascii_of_N (48 + d).

Fixpoint decimal_digits_aux (fuel : nat) (n : N) (acc : string) : string :=
  match fuel with
  | O => acc
  | S fuel' =>
      let acc' := String (digit_char (n mod 10)) acc in
      if (n / 10 =? 0)%N then acc' else decimal_digits_aux fuel' (n / 10) acc'
  end.

(** "the digits of the decimal representation of n (in order, with no
    leading zeroes)"; the representation of 0 is "0". *)
Definition decimal_digits (n : N) : string :=
  decimal_digits_aux (S (N.to_nat (N.log2 n))) n EmptyString.

(** ** Numbers: IEEE 754 binary64 *)

Definition prec : Z := 53.
Definition emax : Z := 1024.

Definition number : Type := spec_float.

(** The Number value of a mathematical integer (exact below 2^53,
    rounded to nearest even above). *)
Definition Number_of_Z (z : Z) : number :=
  binary_normalize prec emax z 0 false.

Definition Number_mul (x y : number) : number := SFmul prec emax x y.
Definition Number_div (x y : number) : number := SFdiv prec emax x y.

Definition Number_isFinite (x : number) : bool :=
  match x with
  | S754_zero _ | S754_finite _ _ _ => true
  | S754_infinity _ | S754_nan => false
  end.

(** The mathematical value of a finite number, in absolute value, as a
    fraction [num / den] whose denominator is a power of two. *)
Definition abs_num (x : number) : Z :=
  match x with
  | S754_finite _ m e => if 0 <=? e then Z.pos m * 2 ^ e else Z.pos m
  | _ => 0
  end.

Definition abs_den (x : number) : Z :=
  match x with
  | S754_finite _ _ e => if 0 <=? e then 1 else 2 ^ (- e)
  | _ => 1
  end.

(** [x < 0] on the mathematical value ([-0] is not below zero). *)
Definition is_negative (x : number) : bool :=
  match x with
  | S754_finite s _ _ => s
  | _ => false
  end.

(** Step 10.a of [Number.prototype.toFixed]: "Let n be an integer for which
    n / 10^f - x is as close to zero as possible. If there are two such n,
    pick the larger n."  Here [x] is the absolute value. *)
Definition toFixed_n (x : number) (f : nat) : Z :=
  (2 * abs_num x * 10 ^ Z.of_nat f + abs_den x) / (2 * abs_den x).

(** Step 9 of [toFixed]: the absolute value is at least 10^21. *)
Definition at_least_1e21 (x : number) : bool :=
  10 ^ 21 * abs_den x <=? abs_num x.

Section ToFixed.

(** [Number::toString] for values that are not rendered digit by digit
    here (non-finite numbers are handled below; the remaining use is the
    exponential notation of values of magnitude 10^21 and more). *)
Variable Number_toString : number -> string.

(** [Number.prototype.toFixed (fractionDigits)], ECMA-262 21.1.3.3. *)
Definition toFixed (x : number) (f : nat) : string :=
  match x with
  | S754_nan => "NaN"
  | S754_infinity false => "Infinity"
  | S754_infinity true => "-Infinity"
  | _ =>
      let s := if is_negative x then "-" else "" in
      let m :=
        if at_least_1e21 x then
          Number_toString (SFabs x)
        else
          let n := toFixed_n x f in
          let m := decimal_digits (Z.to_N n) in
          match f with
          | O => m
          | _ =>
              let k := String.length m in
              let m := if (k <=? f)%nat
                       then repeat_char "0" (f + 1 - k) ++ m else m in
              let k := if (k <=? f)%nat then (f + 1)%nat else k in
              let a := String.substring 0 (k - f) m in
              let b := String.substring (k - f) f m in
              a ++ "." ++ b
          end
      in
      s ++ m
  end.

End ToFixed.

(** Template-literal rendering of an integer of magnitude at most
    [MAX_SAFE_INTEGER] ([Number::toString] prints such a value as its
    decimal digits, with a leading minus sign when negative).  A Number of
    greater magnitude is printed with its shortest round-trip digits, and
    from 10^21 on in exponent notation; every statement below about the
    printed text of an id is made for ids within the bound. *)
Definition integer_toString (z : Z) : string :=
  (if z <? 0 then "-" else "") ++ decimal_digits (Z.to_N (Z.abs z)).

Definition MAX_SAFE_INTEGER : Z := 2 ^ 53 - 1.

End JS.

(* ===================================================================== *)
(** * Entities *)
(* ===================================================================== *)

(** Modelled from the spec: the entity file buch.entity.ts is not among the
    embedded sources.  Section 3 of the specification lists the fields of a
    Book; the types follow [Suchkriterien] below.  [rabatt] may be undefined
    (the resolver reads it with [??]), [abbildungen] is undefined unless the
    images relation was joined.  The category is "one of a fixed
    enumeration (e.g. hardcover, paperback)". *)
Inductive BuchArt : Type := HARDCOVER | PAPERBACK.

Record Abbildung : Type := mkAbbildung {
  abbildung_id : Z;
  abbildung_buch_id : Z            (* the Book this image is associated with *)
}.

Record Buch : Type := mkBuch {
  id : Z;
  isbn : string;
  rating : JS.number;
  art : BuchArt;
  preis : JS.number;
  rabatt : option JS.number;
  lieferbar : bool;
  datum : string;
  homepage : string;
  schlagwoerter : list string;
  titel : string;
  abbildungen : option (list Abbildung)
}.

Definition set_abbildungen (b : Buch) (abb : option (list Abbildung)) : Buch :=
  {| id := id b; isbn := isbn b; rating := rating b; art := art b;
     preis := preis b; rabatt := rabatt b; lieferbar := lieferbar b;
     datum := datum b; homepage := homepage b;
     schlagwoerter := schlagwoerter b; titel := titel b;
     abbildungen := abb |}.

(** The relational store: the rows of the book table (the field
    [abbildungen] is not a column; a row carries [None]) and the rows of the
    image table. *)
Record Datenbank : Type := mkDatenbank {
  buch_tabelle : list Buch;
  abbildung_tabelle : list Abbildung
}.

(* ===================================================================== *)
(** * Parameter types of the service *)
(* ===================================================================== *)

(** A value of a search criterion: string, number or boolean. *)
Inductive Wert : Type :=
| WString (s : string)
| WNumber (x : JS.number)
| WBoolean (b : bool).

(** [interface Suchkriterien]: an object used as a mapping from criterion
    names to values.  At run time the object may carry any own keys (the
    GraphQL and REST layers pass the caller's object through), so it is an
    association list in insertion order; [Object_keys] lists its keys. *)
Definition Suchkriterien : Type := list (string * Wert).

Definition Object_keys (o : Suchkriterien) : list string := map fst o.

(** [interface FindByIdParams]; [mitAbbildungen] is optional.  The id is an
    integer-valued Number. *)
Record FindByIdParams : Type := mkFindByIdParams {
  param_id : Z;
  param_mitAbbildungen : option bool
}.

(** The argument object [{ id, mitAbbildungen }] handed to
    [QueryBuilder.buildId]. *)
Record BuildIdParams : Type := mkBuildIdParams {
  build_id : Z;
  build_mitAbbildungen : bool
}.

(** [Buffer]: the bytes of a file. *)
Definition Buffer : Type := list Byte.byte.

(** Every object is truthy, also an empty [Buffer]. *)
Definition Buffer_truthy (b : Buffer) : bool := true.

(* ===================================================================== *)
(** * Effects: exceptions, environment and trace *)
(* ===================================================================== *)

(** What a method can throw: the [NotFoundException] of the web framework,
    or the error with which [fs.readFile] rejects. *)
Inductive Exception : Type :=
| NotFoundException (message : string)
| SystemError (message : string).

Definition message_of (e : Exception) : string :=
  match e with
  | NotFoundException m => m
  | SystemError m => m
  end.

(** The query object returned by the query builder, seen through the rows it
    yields when it is executed on a database. *)
Definition SelectQueryBuilder : Type := Datenbank -> list Buch.

(** [class QueryBuilder], as far as the read service uses it. *)
Record QueryBuilder : Type := mkQueryBuilder {
  build : Suchkriterien -> SelectQueryBuilder;
  buildId : BuildIdParams -> SelectQueryBuilder
}.

(** The calls made to the collaborators, in program order. *)
Inductive Ereignis : Type :=
| Build (suchkriterien : Suchkriterien)     (* queryBuilder.build(...)   *)
| BuildId (params : BuildIdParams)          (* queryBuilder.buildId(...) *)
| GetOne                                    (* query.getOne()            *)
| GetMany                                   (* query.getMany()           *)
| ReadFile (path : string)                  (* fs.readFile(path)         *)
| ConsoleError (text : string).             (* console.error(text)       *)

Definition ist_query (e : Ereignis) : bool :=
  match e with
  | Build _ | BuildId _ | GetOne | GetMany => true
  | ReadFile _ | ConsoleError _ => false
  end.

Record Umgebung : Type := mkUmgebung {
  datenbank : Datenbank;
  dateisystem : string -> Exception + Buffer
}.

Definition Ergebnis (A : Type) : Type := (Exception + A)%type.

(** An awaited computation: trace of collaborator calls and outcome. *)
Definition Aktion (A : Type) : Type := Umgebung -> list Ereignis * Ergebnis A.

Definition ret {A : Type} (a : A) : Aktion A :=
  fun _ => ([], inr a).

Definition throw {A : Type} (e : Exception) : Aktion A :=
  fun _ => ([], inl e).

Definition bind {A B : Type} (m : Aktion A) (k : A -> Aktion B) : Aktion B :=
  fun env =>
    match m env with
    | (t, inl e) => (t, inl e)
    | (t, inr a) => let (t', r) := k a env in ((t ++ t')%list, r)
    end.

(** [try { m } catch (error) { h error }] *)
Definition try_catch {A : Type} (m : Aktion A) (h : Exception -> Aktion A)
  : Aktion A :=
  fun env =>
    match m env with
    | (t, inl e) => let (t', r) := h e env in ((t ++ t')%list, r)
    | (t, inr a) => (t, inr a)
    end.

Declare Scope aktion_scope.
Delimit Scope aktion_scope with aktion.
Notation "x <- m ;; k" := (bind m (fun x => k))
  (at level 100, m at next level, right associativity) : aktion_scope.
Notation "m ;;; k" := (bind m (fun _ => k))
  (at level 100, right associativity) : aktion_scope.

Definition spur {A : Type} (r : list Ereignis * Ergebnis A) : list Ereignis :=
  fst r.
Definition ausgang {A : Type} (r : list Ereignis * Ergebnis A) : Ergebnis A :=
  snd r.

(** ** Calls to the collaborators *)

Definition call_build (qb : QueryBuilder) (k : Suchkriterien)
  : Aktion SelectQueryBuilder :=
  fun _ => ([Build k], inr (build qb k)).

Definition call_buildId (qb : QueryBuilder) (p : BuildIdParams)
  : Aktion SelectQueryBuilder :=
  fun _ => ([BuildId p], inr (buildId qb p)).

(** [getMany()]: all rows of the query, as the store answers it.  A store
    that rejects the query (connection lost, timeout) leaves the calling
    method with the store's own error, which is not a [NotFoundException];
    that path is not part of this model, and the statements below speak of
    the rows of an answered query and of [NotFoundException] failures. *)
Definition getMany (q : SelectQueryBuilder) : Aktion (list Buch) :=
  fun env => ([GetMany], inr (q (datenbank env))).

(** [getOne()]: the first row of the query, or [null], as the store
    answers it (see [getMany] for a store that rejects the query). *)
Definition getOne (q : SelectQueryBuilder) : Aktion (option Buch) :=
  fun env => ([GetOne], inr (hd_error (q (datenbank env)))).

(** [fs.readFile(path)]: resolves with the content or rejects. *)
Definition fs_readFile (path : string) : Aktion Buffer :=
  fun env => ([ReadFile path], dateisystem env path).

Definition console_error (text : string) : Aktion unit :=
  fun _ => ([ConsoleError text], inr tt).

(* ===================================================================== *)
(** * Regular expressions *)
(* ===================================================================== *)

(** The patterns of the [re2] library that the code uses: character classes,
    concatenation and repetition, matched by derivatives (RE2 matches with
    automata, without backtracking).  A pattern written between [^] and [$]
    has to match the whole string. *)
Module RE2.

Inductive Regexp : Type :=
| Void                                  (* matches nothing            *)
| Eps                                   (* matches the empty string   *)
| Klasse (p : ascii -> bool)            (* a character class [...]    *)
| Conc (r s : Regexp)                   (* r followed by s            *)
| Alt (r s : Regexp)                    (* r or s                     *)
| Star (r : Regexp).                    (* r*                         *)

(** The class of the characters from [lo] to [hi], as in [[1-9]]. *)
Definition bereich (lo hi : ascii) (c : ascii) : bool :=
  (N_of_ascii lo <=? N_of_ascii c)%N && (N_of_ascii c <=? N_of_ascii hi)%N.

(** [\d]: the ASCII digits. *)
Definition ziffer : ascii -> bool := bereich "0" "9".

Fixpoint nullable (r : Regexp) : bool :=
  match r with
  | Void => false
  | Eps => true
  | Klasse _ => false
  | Conc r s => nullable r && nullable s
  | Alt r s => nullable r || nullable s
  | Star _ => true
  end.

(** The derivative of [r] by the character [c]. *)
Fixpoint der (c : ascii) (r : Regexp) : Regexp :=
  match r with
  | Void => Void
  | Eps => Void
  | Klasse p => if p c then Eps else Void
  | Conc r s =>
      if nullable r then Alt (Conc (der c r) s) (der c s)
      else Conc (der c r) s
  | Alt r s => Alt (der c r) (der c s)
  | Star r => Conc (der c r) (Star r)
  end.

(** [new RE2('^r$').test(s)] *)
Fixpoint test (r : Regexp) (s : string) : bool :=
  match s with
  | EmptyString => nullable r
  | String c s' => test (der c r) s'
  end.

End RE2.

(** [static readonly ID_PATTERN = new RE2('^[1-9][\\d]*$')] *)
Definition ID_PATTERN : RE2.Regexp :=
  RE2.Conc (RE2.Klasse (RE2.bereich "1" "9")) (RE2.Star (RE2.Klasse RE2.ziffer)).

(* ===================================================================== *)
(** * BuchReadService *)
(* ===================================================================== *)

Section BuchReadService.

Local Open Scope aktion_scope.

(** [#buchProps = Object.getOwnPropertyNames(new Buch())]: the property
    names of the entity, fixed when the service is constructed. *)
Variable buchProps : list string.

(** [#queryBuilder] *)
Variable queryBuilder : QueryBuilder.

(** [JSON.stringify] on a criteria object. *)
Variable JSON_stringify : Suchkriterien -> string.

Definition findById (params : FindByIdParams) : Aktion Buch :=
  let id := param_id params in
  let mitAbbildungen :=
    match param_mitAbbildungen params with
    | Some b => b
    | None => false
    end in
  q <- call_buildId queryBuilder
         {| build_id := id; build_mitAbbildungen := mitAbbildungen |} ;;
  buch <- getOne q ;;
  match buch with
  | None =>
      throw (NotFoundException
               ("Es gibt kein Buch mit der ID " ++ JS.integer_toString id ++ "."))
  | Some buch => ret buch
  end.

(** One round of the [forEach] in [#checkKeys]: the flag [validKeys] is
    cleared when [key] is neither a property nor a reserved name. *)
Definition checkKeys_step (validKeys : bool) (key : string) : bool :=
  if negb (JS.Array_includes buchProps key)
     && negb (String.eqb key "javascript")
     && negb (String.eqb key "typescript")
  then false
  else validKeys.

Definition checkKeys (keys : list string) : bool :=
  fold_left checkKeys_step keys true.

Definition find (suchkriterien : option Suchkriterien) : Aktion (list Buch) :=
  match suchkriterien with
  | None =>
      q <- call_build queryBuilder [] ;;
      getMany q
  | Some suchkriterien =>
      let keys := Object_keys suchkriterien in
      if (List.length keys =? 0)%nat then
        q <- call_build queryBuilder suchkriterien ;;
        getMany q
      else if negb (checkKeys keys) then
        throw (NotFoundException "Ungueltige Suchkriterien")
      else
        q <- call_build queryBuilder suchkriterien ;;
        buecher <- getMany q ;;
        if (List.length buecher =? 0)%nat then
          throw (NotFoundException
                   ("Keine Buecher gefunden: " ++ JSON_stringify suchkriterien))
        else ret buecher
  end.

Definition loadImageFromFileSystem (imageName : string) : Aktion Buffer :=
  let imagePath := "C:/Users/Student/SWE/buch/images/" ++ imageName in
  try_catch
    (imageBuffer <- fs_readFile imagePath ;;
     ret imageBuffer)
    (fun error =>
       console_error ("Error loading image: " ++ message_of error) ;;;
       throw (NotFoundException ("Image not found for name: " ++ imageName))).

Definition loadImageFromServer (imageName : string) : Aktion Buffer :=
  imageBuffer <- loadImageFromFileSystem imageName ;;
  if negb (Buffer_truthy imageBuffer) then
    throw (NotFoundException ("Image not found for name: " ++ imageName))
  else ret imageBuffer.

Definition findImageByName (imageName : string) : Aktion Buffer :=
  imageBuffer <- loadImageFromServer imageName ;;
  if negb (Buffer_truthy imageBuffer) then
    throw (NotFoundException ("No image found for name: " ++ imageName))
  else ret imageBuffer.

End BuchReadService.

(* ===================================================================== *)
(** * Base64 *)
(* ===================================================================== *)

(** [Buffer.prototype.toString('base64')]: the standard Base64 encoding
    (RFC 4648, section 4) with padding. *)
Module Base64.

Definition alphabet : string :=
  "ABCDEFGHIJKLMNOPQRSTUVWXYZabcdefghijklmnopqrstuvwxyz0123456789+/".

(** The character for a group of six bits. *)
Definition zeichen (i : N) : ascii :=
  match String.get (N.to_nat i) alphabet with
  | Some c => c
  | None => "="%char
  end.

Fixpoint encode (bytes : list Byte.byte) : string :=
  match bytes with
  | [] => EmptyString
  | [a] =>
      let x := Byte.to_N a in
      String (zeichen (x / 4))
        (String (zeichen ((x mod 4) * 16)) "==")
  | [a; b] =>
      let x := Byte.to_N a in
      let y := Byte.to_N b in
      String (zeichen (x / 4))
        (String (zeichen ((x mod 4) * 16 + y / 16))
           (String (zeichen ((y mod 16) * 4)) "="))
  | a :: b :: c :: rest =>
      let x := Byte.to_N a in
      let y := Byte.to_N b in
      let z := Byte.to_N c in
      String (zeichen (x / 4))
        (String (zeichen ((x mod 4) * 16 + y / 16))
           (String (zeichen ((y mod 16) * 4 + z / 64))
              (String (zeichen (z mod 64)) (encode rest))))
  end%N.

End Base64.

Definition Buffer_toString_base64 (b : Buffer) : string := Base64.encode b.

(* ===================================================================== *)
(** * BuchQueryResolver *)
(* ===================================================================== *)

(** [interface IdInput]: the arguments of the GraphQL query [buch]. *)
Record IdInput : Type := mkIdInput {
  input_id : Z
}.

(** [interface ImageInput]: the argument of the GraphQL query [findImage]. *)
Record ImageInput : Type := mkImageInput {
  input_imageName : string
}.

(** The object [{ imageName, image }] returned by the query [findImage]. *)
Record ImageOutput : Type := mkImageOutput {
  output_imageName : string;
  output_image : string
}.

Module Resolver.
Section BuchQueryResolver.

Local Open Scope aktion_scope.

Variable buchProps : list string.
Variable queryBuilder : QueryBuilder.
Variable JSON_stringify : Suchkriterien -> string.
Variable Number_toString : JS.number -> string.

(** [@Query('buch')] *)
Definition findById (idInput : IdInput) : Aktion Buch :=
let id := input_id idInput in
buch <- findById queryBuilder
          {| param_id := id; param_mitAbbildungen := None |} ;;
ret buch.

(** [@Query('buecher')]; a [BuchFilter] is a criteria object. *)
Definition find (filter : option Suchkriterien) : Aktion (list Buch) :=
buecher <- find buchProps queryBuilder JSON_stringify filter ;;
ret buecher.

(** [@ResolveField('rabatt')] *)
Definition rabatt (buch : Buch) (short : option bool) : string :=
let rabatt :=
  match rabatt buch with
  | Some r => r
  | None => JS.Number_of_Z 0
  end in
let shortStr :=
  match short with
  | None => "%"
  | Some true => "%"
  | Some false => "Prozent"
  end in
JS.toFixed Number_toString (JS.Number_mul rabatt (JS.Number_of_Z 100)) 2
  ++ " " ++ shortStr.

(** [@Query('findImage')] *)
Definition findImage (imageInput : ImageInput) : Aktion ImageOutput :=
  let imageName := input_imageName imageInput in
  imageBuffer <- findImageByName imageName ;;
  ret {| output_imageName := imageName;
         output_image := Buffer_toString_base64 imageBuffer |}.

End BuchQueryResolver.
End Resolver.

(* ===================================================================== *)
(** * The query builder of the specification *)
(* ===================================================================== *)

Module SpecQueryBuilder.
Section Vergleich.

(** Modelled from the spec: the comparison a single criterion stands for
  ("exact match for enumerations/booleans/identifiers,
  containment/substring match for free-text fields, range or exact match
  for numeric fields", keyword flags checked against the keywords).  The
  specification leaves the comparison of several fields open, so it is a
  parameter of the model. *)
Variable erfuellt : string -> Wert -> Buch -> bool.

(** The images associated with the Book [buch_id]. *)
Definition abbildungen_von (db : Datenbank) (buch_id : Z) : list Abbildung :=
filter (fun a => abbildung_buch_id a =? buch_id) (abbildung_tabelle db).

(** The entity built from a row: the images relation is joined only if
  requested, otherwise the images are absent. *)
Definition lade (db : Datenbank) (mitAbbildungen : bool) (zeile : Buch) : Buch :=
set_abbildungen zeile
  (if mitAbbildungen then Some (abbildungen_von db (id zeile)) else None).

(** Modelled from the spec: query-builder.ts is not among the embedded
  sources.  "By identifier: given a positive integer id and a flag
  indicating whether to include associated images, produces a query that
  fetches at most one Book matching that id, with the images relation
  joined only if requested." *)
Definition buildId (p : BuildIdParams) : SelectQueryBuilder :=
fun db =>
  map (lade db (build_mitAbbildungen p))
      (firstn 1 (filter (fun b => id b =? build_id p) (buch_tabelle db))).

(** Modelled from the spec: query-builder.ts is not among the embedded
  sources.  "By criteria: given a mapping of criteria names to values
  (possibly empty), produces a query that filters Books by conjunction of
  all supplied criteria. [...] An empty criteria mapping yields an
  unfiltered query returning all Books."  Images are "never eagerly
  loaded unless requested". *)
Definition build (k : Suchkriterien) : SelectQueryBuilder :=
fun db =>
  map (lade db false)
      (filter (fun b => forallb (fun kv => erfuellt (fst kv) (snd kv) b) k)
              (buch_tabelle db)).

Definition queryBuilder : QueryBuilder :=
mkQueryBuilder build buildId.

(** All Books of the store, as entities without images. *)
Definition alle_buecher (db : Datenbank) : list Buch :=
map (lade db false) (buch_tabelle db).

End Vergleich.
End SpecQueryBuilder.

(* ===================================================================== *)
(** * Sample data *)
(* ===================================================================== *)

Module Beispiel.

(** Modelled from the spec: the property names of a Book listed in
    section 3 (the keyword flags are not literal entity fields). *)
Definition buchProps : list string :=
  ["id"; "isbn"; "rating"; "art"; "preis"; "rabatt"; "lieferbar"; "datum";
   "homepage"; "schlagwoerter"; "titel"; "abbildungen"].

(** 0.1, the binary64 value nearest to one tenth. *)
Definition zehntel : JS.number := S754_finite false 7205759403792794 (-56).

Definition buch1 : Buch :=
  {| id := 1; isbn := "978-3-897-22583-1"; rating := JS.Number_of_Z 4;
     art := HARDCOVER; preis := JS.Number_of_Z 11;
     rabatt := Some zehntel; lieferbar := true; datum := "2022-02-01";
     homepage := "https://acme.at";
     schlagwoerter := ["JAVASCRIPT"; "TYPESCRIPT"];
     titel := "Java und TypeScript"; abbildungen := None |}.

Definition buch2 : Buch :=
  {| id := 20; isbn := "978-0-007-00644-1"; rating := JS.Number_of_Z 2;
     art := PAPERBACK; preis := JS.Number_of_Z 22;
     rabatt := None; lieferbar := false; datum := "2022-02-02";
     homepage := "https://acme.biz";
     schlagwoerter := ["TYPESCRIPT"];
     titel := "Beta"; abbildungen := None |}.

Definition db : Datenbank :=
  {| buch_tabelle := [buch1; buch2];
     abbildung_tabelle :=
       [ {| abbildung_id := 1; abbildung_buch_id := 1 |};
         {| abbildung_id := 2; abbildung_buch_id := 20 |};
         {| abbildung_id := 3; abbildung_buch_id := 1 |} ] |}.

Definition leere_db : Datenbank :=
  {| buch_tabelle := []; abbildung_tabelle := [] |}.

Definition bild : Buffer := [Byte.x89; Byte.x50; Byte.x4e; Byte.x47].

(** A file system holding one image. *)
Definition dateisystem (path : string) : Exception + Buffer :=
  if String.eqb path "C:/Users/Student/SWE/buch/images/cover.png"
  then inr bild
  else inl (SystemError ("ENOENT: no such file or directory, open '" ++ path ++ "'")).

Definition env : Umgebung := mkUmgebung db dateisystem.

Definition leere_env : Umgebung := mkUmgebung leere_db dateisystem.

(** A comparison in the sense of the specification: the title is matched
    by containment, the availability exactly, every other criterion is
    taken as satisfied. *)
Definition erfuellt (key : string) (w : Wert) (b : Buch) : bool :=
  match w with
  | WString s =>
      if String.eqb key "titel" then JS.String_includes (titel b) s else true
  | WBoolean v =>
      if String.eqb key "lieferbar" then Bool.eqb (lieferbar b) v else true
  | WNumber _ => true
  end.

Definition queryBuilder : QueryBuilder := SpecQueryBuilder.queryBuilder erfuellt.

(** A stand-in for [JSON.stringify] that lists the keys. *)
Definition JSON_stringify (k : Suchkriterien) : string :=
  "{" ++ String.concat "," (Object_keys k) ++ "}".

(** A stand-in for [Number::toString]; the runs below never reach it. *)
Definition Number_toString (x : JS.number) : string := "1e+21".

End Beispiel.

(* ===================================================================== *)
(** * Vocabulary of the properties *)
(* ===================================================================== *)

(** A criteria key is recognised when it is a property name of the entity or
    one of the two reserved keyword flags. *)
Definition erkannt (buchProps : list string) (key : string) : Prop :=
  In key buchProps \/ key = "javascript" \/ key = "typescript".

Definition erkanntb (buchProps : list string) (key : string) : bool :=
  JS.Array_includes buchProps key
  || String.eqb key "javascript"
  || String.eqb key "typescript".

(** The keys of a criteria object that are not recognised. *)
Definition unbekannte_keys (buchProps : list string) (k : Suchkriterien)
  : list string :=
  filter (fun key => negb (erkanntb buchProps key)) (Object_keys k).

(** A failure of the kind the specification calls [InvalidCriteria(keys)]:
    an exception that is not a [NotFoundException] and whose message names
    every offending key. *)
Definition InvalidCriteria_failure {A : Type} (keys : list string)
    (r : Ergebnis A) : Prop :=
  exists e : Exception,
    r = inl e
    /\ (forall m, e <> NotFoundException m)
    /\ (forall key, In key keys -> JS.String_includes (message_of e) key = true).



(** The path under which [loadImageFromFileSystem] looks for an image. *)
Definition image_path (imageName : string) : string :=
  "C:/Users/Student/SWE/buch/images/" ++ imageName.

(* ===================================================================== *)
(** * Vocabulary of the further properties *)
(* ===================================================================== *)

(** The number a string of decimal digits stands for, continuing [acc]. *)
Fixpoint dezimalwert (s : string) (acc : N) : N :=
  match s with
  | EmptyString => acc
  | String c s' => dezimalwert s' (10 * acc + (N_of_ascii c - 48))
  end.

(** Every character of the string is an ASCII digit. *)
Fixpoint alle_ziffern (s : string) : bool :=
  match s with
  | EmptyString => true
  | String c s' => RE2.ziffer c && alle_ziffern s'
  end.

(** The groups of six bits, 0 to 63. *)
Definition sextette : list N :=
  Eval cbv in map N.of_nat (seq 0 64).

(** Where a character stands in the Base64 alphabet. *)
Definition stelle (c : ascii) : option N :=
  List.find (fun i => Ascii.eqb (Base64.zeichen i) c) sextette.

(** The ten decimal digits. *)
Definition dezimalziffern : list ascii := list_ascii_of_string "0123456789".

(** [s] is the decimal notation of the natural number [n]: at least one
    character, decimal digits only, no leading zero except in "0" itself,
    and the digits, read from the left, have the value [n]. *)
Definition dezimaldarstellung (s : string) (n : N) : Prop :=
  s <> EmptyString
  /\ (forall c, In c (list_ascii_of_string s) -> In c dezimalziffern)
  /\ (forall rest, s = String "0" rest -> rest = EmptyString)
  /\ dezimalwert s 0 = n.

(** [s] is the decimal notation of the integer [z], with a minus sign in
    front when [z] is negative. *)
Definition ganzzahl_text (s : string) (z : Z) : Prop :=
  match z with
  | Z.neg p => exists t, s = String "-" t /\ dezimaldarstellung t (N.pos p)
  | _ => dezimaldarstellung s (Z.to_N z)
  end.

(** The two entities agree in every column of the book table. *)
Definition gleiche_spalten (r b : Buch) : Prop :=
  id r = id b /\ isbn r = isbn b /\ rating r = rating b /\ art r = art b
  /\ preis r = preis b /\ rabatt r = rabatt b /\ lieferbar r = lieferbar b
  /\ datum r = datum b /\ homepage r = homepage b
  /\ schlagwoerter r = schlagwoerter b /\ titel r = titel b.

(** Books with discounts outside the data model, and more files. *)
Module Grenzfall.

Definition mit_rabatt (b : Buch) (r : option JS.number) : Buch :=
  {| id := id b; isbn := isbn b; rating := rating b; art := art b;
     preis := preis b; rabatt := r; lieferbar := lieferbar b;
     datum := datum b; homepage := homepage b;
     schlagwoerter := schlagwoerter b; titel := titel b;
     abbildungen := abbildungen b |}.

(** -0.5 *)
Definition minus_halb : JS.number :=
  JS.Number_div (JS.Number_of_Z (-1)) (JS.Number_of_Z 2).

Definition buch_negativ : Buch := mit_rabatt Beispiel.buch1 (Some minus_halb).
Definition buch_unendlich : Buch :=
  mit_rabatt Beispiel.buch1 (Some (S754_infinity false)).

(** A second file system that holds the same image under another name. *)
Definition dateisystem (path : string) : Exception + Buffer :=
  if String.eqb path "C:/Users/Student/SWE/buch/images/titel.png"
  then inr Beispiel.bild
  else inl (SystemError "EACCES: permission denied").

Definition env : Umgebung := mkUmgebung Beispiel.leere_db dateisystem.

End Grenzfall.

(* ===================================================================== *)
(** * Properties of the criteria validator *)
(* ===================================================================== *)

Section CheckKeys.

Variable buchProps : list string.

Lemma Array_includes_In (xs : list string) (x : string) :
  JS.Array_includes xs x = true <-> In x xs.
Proof.
  unfold JS.Array_includes. rewrite existsb_exists. split.
  - intros [y [Hy Heq]]. apply String.eqb_eq in Heq. now subst.
  - intros H. exists x. split; [assumption | apply String.eqb_refl].
Qed.

Lemma erkanntb_spec (key : string) :
  erkanntb buchProps key = true <-> erkannt buchProps key.
Proof.
  unfold erkanntb, erkannt.
  rewrite !orb_true_iff, Array_includes_In, !String.eqb_eq. tauto.
Qed.

Lemma erkanntb_false (key : string) :
  erkanntb buchProps key = false <-> ~ erkannt buchProps key.
Proof.
  rewrite <- erkanntb_spec.
  destruct (erkanntb buchProps key); split; intros H; congruence.
Qed.

Lemma checkKeys_step_and (validKeys : bool) (key : string) :
  checkKeys_step buchProps validKeys key = validKeys && erkanntb buchProps key.
Proof.
  unfold checkKeys_step, erkanntb.
  destruct (JS.Array_includes buchProps key),
    (String.eqb key "javascript"), (String.eqb key "typescript"),
    validKeys; reflexivity.
Qed.

(** The mutable flag of [#checkKeys] after the loop, from any start. *)
Lemma checkKeys_fold (keys : list string) :
  forall validKeys,
    fold_left (checkKeys_step buchProps) keys validKeys
    = validKeys && forallb (erkanntb buchProps) keys.
Proof.
  induction keys as [| key keys IH]; intros validKeys; simpl.
  - now rewrite andb_true_r.
  - rewrite IH, checkKeys_step_and. now rewrite andb_assoc.
Qed.

Lemma checkKeys_forallb (keys : list string) :
  checkKeys buchProps keys = forallb (erkanntb buchProps) keys.
Proof. unfold checkKeys. now rewrite checkKeys_fold. Qed.

Lemma checkKeys_true (keys : list string) :
  checkKeys buchProps keys = true
  <-> (forall key, In key keys -> erkannt buchProps key).
Proof.
  rewrite checkKeys_forallb, forallb_forall.
  split; intros H key Hin; apply erkanntb_spec; auto.
Qed.

Lemma checkKeys_false (keys : list string) :
  checkKeys buchProps keys = false
  <-> (exists key, In key keys /\ ~ erkannt buchProps key).
Proof.
  rewrite checkKeys_forallb. split.
  - induction keys as [| key keys IH]; simpl; [discriminate |].
    destruct (erkanntb buchProps key) eqn:E; simpl.
    + intros H. destruct (IH H) as [k [Hin Hk]]. exists k. auto.
    + intros _. exists key. split; [now left | now apply erkanntb_false].
  - intros [key [Hin Hk]]. apply erkanntb_false in Hk.
    destruct (forallb (erkanntb buchProps) keys) eqn:E; [| reflexivity].
    rewrite forallb_forall in E. rewrite (E key Hin) in Hk. discriminate.
Qed.

(** C5: the criteria validator returns true if and only if every supplied
    key is a known Book property name or one of the reserved flags
    'javascript' and 'typescript'; as soon as one key is unrecognised it
    returns false, whatever the other keys are. *)
Theorem checkKeys_all_or_nothing (keys : list string) :
  (checkKeys buchProps keys = true
   <-> (forall key, In key keys -> erkannt buchProps key))
  /\ (checkKeys buchProps keys = false
      <-> (exists key, In key keys /\ ~ erkannt buchProps key)).
Proof. split; [apply checkKeys_true | apply checkKeys_false]. Qed.

End CheckKeys.

(* ===================================================================== *)
(** * Properties of [find] over an arbitrary query builder *)
(* ===================================================================== *)

Section Find.

Variable buchProps : list string.
Variable queryBuilder : QueryBuilder.
Variable JSON_stringify : Suchkriterien -> string.

Local Abbreviation suche := (find buchProps queryBuilder JSON_stringify).

Lemma keys_nonempty_length (k : Suchkriterien) :
  Object_keys k <> [] -> (List.length (Object_keys k) =? 0)%nat = false.
Proof. destruct (Object_keys k); [congruence | reflexivity]. Qed.

(** The whole run of [find] on criteria with an unrecognised key. *)
Lemma find_unrecognised_run (k : Suchkriterien) (env : Umgebung) :
  (exists key, In key (Object_keys k) /\ ~ erkannt buchProps key) ->
  suche (Some k) env = ([], inl (NotFoundException "Ungueltige Suchkriterien")).
Proof.
  intros Hbad. unfold find.
  assert (Hne : Object_keys k <> []).
  { destruct Hbad as [key [Hin _]]. intros E. rewrite E in Hin. inversion Hin. }
  rewrite (keys_nonempty_length k Hne).
  apply checkKeys_false in Hbad. rewrite Hbad. reflexivity.
Qed.

(** The whole run of [find] on non-empty criteria that pass validation. *)
Lemma find_validated_run (k : Suchkriterien) (env : Umgebung) :
  Object_keys k <> [] ->
  checkKeys buchProps (Object_keys k) = true ->
  suche (Some k) env =
    ([Build k; GetMany],
     match build queryBuilder k (datenbank env) with
     | [] => inl (NotFoundException
                    ("Keine Buecher gefunden: " ++ JSON_stringify k))
     | buecher => inr buecher
     end).
Proof.
  intros Hne Hok. unfold find.
  rewrite (keys_nonempty_length k Hne), Hok.
  unfold bind, call_build, getMany, throw, ret; simpl.
  destruct (build queryBuilder k (datenbank env)); reflexivity.
Qed.

(** The whole run of [find] without criteria or with an empty object. *)
Lemma find_unfiltered_run (env : Umgebung) :
  suche None env = ([Build []; GetMany], inr (build queryBuilder [] (datenbank env)))
  /\ suche (Some []) env
     = ([Build []; GetMany], inr (build queryBuilder [] (datenbank env))).
Proof. split; reflexivity. Qed.

(** C1 (as amended): when the criteria contain at least one key that is
    neither a Book property name nor 'javascript'/'typescript', [find] fails
    with a [NotFoundException] carrying the fixed message
    'Ungueltige Suchkriterien'. *)
Theorem find_unrecognised_key_fails (k : Suchkriterien) (env : Umgebung) :
  (exists key, In key (Object_keys k) /\ ~ erkannt buchProps key) ->
  ausgang (suche (Some k) env)
  = inl (NotFoundException "Ungueltige Suchkriterien").
Proof. intros H. now rewrite (find_unrecognised_run k env H). Qed.

(** C6: when the criteria contain at least one unrecognised key, [find]
    fails and its trace holds no call at all, so no query was constructed
    ([build]) or executed ([getMany]) before the failure. *)
Theorem find_unrecognised_key_runs_no_query (k : Suchkriterien) (env : Umgebung) :
  (exists key, In key (Object_keys k) /\ ~ erkannt buchProps key) ->
  spur (suche (Some k) env) = []
  /\ existsb ist_query (spur (suche (Some k) env)) = false
  /\ exists e, ausgang (suche (Some k) env) = inl e.
Proof.
  intros H. rewrite (find_unrecognised_run k env H). simpl.
  repeat split. now eexists.
Qed.

(** C3: for non-empty criteria whose keys all pass validation, [find] fails
    with a [NotFoundException] whose message carries the criteria when the
    executed query yields no row, and otherwise returns the rows of the
    query. *)
Theorem find_validated_criteria (k : Suchkriterien) (env : Umgebung) :
  Object_keys k <> [] ->
  checkKeys buchProps (Object_keys k) = true ->
  (build queryBuilder k (datenbank env) = [] ->
   ausgang (suche (Some k) env)
   = inl (NotFoundException ("Keine Buecher gefunden: " ++ JSON_stringify k)))
  /\ (build queryBuilder k (datenbank env) <> [] ->
      ausgang (suche (Some k) env) = inr (build queryBuilder k (datenbank env))).
Proof.
  intros Hne Hok. rewrite (find_validated_run k env Hne Hok). simpl.
  split; intros H.
  - now rewrite H.
  - destruct (build queryBuilder k (datenbank env)); [congruence | reflexivity].
Qed.

End Find.

(* ===================================================================== *)
(** * Properties of the image lookup *)
(* ===================================================================== *)

Section FindImage.

Lemma findImageByName_run (imageName : string) (env : Umgebung) :
  findImageByName imageName env =
    match dateisystem env (image_path imageName) with
    | inr bytes => ([ReadFile (image_path imageName)], inr bytes)
    | inl error =>
        ([ReadFile (image_path imageName);
          ConsoleError ("Error loading image: " ++ message_of error)],
         inl (NotFoundException ("Image not found for name: " ++ imageName)))
    end.
Proof.
  unfold findImageByName, loadImageFromServer, loadImageFromFileSystem.
  fold (image_path imageName).
  unfold bind, try_catch, fs_readFile, console_error, throw, ret.
  destruct (dateisystem env (image_path imageName)); reflexivity.
Qed.

(** C10: [findImageByName] reads the file whose path is the fixed prefix
    followed by [imageName] unchanged; it returns the bytes of that file
    when the read succeeds and fails with a [NotFoundException] naming
    [imageName] exactly when the read fails. *)
Theorem findImageByName_reads_prefixed_path (imageName : string) (env : Umgebung) :
  image_path imageName = "C:/Users/Student/SWE/buch/images/" ++ imageName
  /\ hd_error (spur (findImageByName imageName env))
     = Some (ReadFile (image_path imageName))
  /\ ausgang (findImageByName imageName env)
     = match dateisystem env (image_path imageName) with
       | inr bytes => inr bytes
       | inl _ => inl (NotFoundException
                         ("Image not found for name: " ++ imageName))
       end
  /\ ((exists e, ausgang (findImageByName imageName env) = inl e)
      <-> (exists error, dateisystem env (image_path imageName) = inl error)).
Proof.
  rewrite findImageByName_run.
  destruct (dateisystem env (image_path imageName)) as [error | bytes]; simpl.
  - repeat split; intros _; eexists; reflexivity.
  - repeat split; intros [e He]; discriminate.
Qed.

End FindImage.

(* ===================================================================== *)
(** * Properties that rest on the query builder of the specification *)
(* ===================================================================== *)

Section MitSpecQueryBuilder.

Variable buchProps : list string.
Variable erfuellt : string -> Wert -> Buch -> bool.
Variable JSON_stringify : Suchkriterien -> string.

Local Abbreviation qb := (SpecQueryBuilder.queryBuilder erfuellt).

Lemma build_empty_criteria (db : Datenbank) :
  build qb [] db = SpecQueryBuilder.alle_buecher db.
Proof.
  unfold SpecQueryBuilder.alle_buecher. simpl. unfold SpecQueryBuilder.build.
  f_equal. change (filter (fun _ : Buch => true) (buch_tabelle db) = buch_tabelle db).
  induction (buch_tabelle db) as [| b bs IH]; simpl; congruence.
Qed.

(** Rows with a given identifier, in a table whose identifiers are unique. *)
Lemma filter_id_unique (rows : list Buch) (b : Buch) :
  NoDup (map id rows) -> In b rows ->
  filter (fun x => id x =? id b) rows = [b].
Proof.
  induction rows as [| h t IH]; intros Hnd Hin; [inversion Hin |].
  simpl in Hnd. inversion Hnd as [| ? ? Hnotin Hnd']; subst.
  assert (Hrest : forall x, In x t -> id x = id h ->
                  False).
  { intros x Hx Hid. apply Hnotin. rewrite <- Hid. now apply in_map. }
  simpl. destruct Hin as [-> | Hin].
  - rewrite Z.eqb_refl. f_equal.
    clear IH Hnd Hnd' Hnotin. induction t as [| x t IHt]; [reflexivity |].
    simpl. destruct (id x =? id b) eqn:E.
    + apply Z.eqb_eq in E. exfalso. apply (Hrest x); [now left | assumption].
    + apply IHt. intros y Hy. apply Hrest. now right.
  - destruct (id h =? id b) eqn:E.
    + apply Z.eqb_eq in E. exfalso. apply (Hrest b Hin). now symmetry.
    + now apply IH.
Qed.

Lemma filter_id_absent (rows : list Buch) (i : Z) :
  ~ (exists b, In b rows /\ id b = i) ->
  filter (fun x => id x =? i) rows = [].
Proof.
  intros Hno. induction rows as [| h t IH]; [reflexivity |].
  simpl. destruct (id h =? i) eqn:E.
  - apply Z.eqb_eq in E. exfalso. apply Hno. exists h. split; [now left | assumption].
  - apply IH. intros [b [Hin Hb]]. apply Hno. exists b. split; [now right | assumption].
Qed.

(** The whole run of [findById] when the Book exists. *)
Lemma findById_found_run (env : Umgebung) (b : Buch) (mit : option bool) :
  NoDup (map id (buch_tabelle (datenbank env))) ->
  In b (buch_tabelle (datenbank env)) ->
  findById qb {| param_id := id b; param_mitAbbildungen := mit |} env
  = ([BuildId {| build_id := id b;
                 build_mitAbbildungen := match mit with
                                         | Some m => m
                                         | None => false
                                         end |}; GetOne],
     inr (SpecQueryBuilder.lade (datenbank env)
            (match mit with Some m => m | None => false end) b)).
Proof.
  intros Hnd Hin. unfold findById, bind, call_buildId, getOne, ret, throw.
  cbn [param_id param_mitAbbildungen buildId SpecQueryBuilder.queryBuilder].
  unfold SpecQueryBuilder.buildId. cbn [build_id build_mitAbbildungen].
  rewrite (filter_id_unique _ b Hnd Hin). reflexivity.
Qed.

(** The whole run of [findById] when no Book has the identifier. *)
Lemma findById_absent_run (env : Umgebung) (i : Z) (mit : option bool) :
  ~ (exists b, In b (buch_tabelle (datenbank env)) /\ id b = i) ->
  findById qb {| param_id := i; param_mitAbbildungen := mit |} env
  = ([BuildId {| build_id := i;
                 build_mitAbbildungen := match mit with
                                         | Some m => m
                                         | None => false
                                         end |}; GetOne],
     inl (NotFoundException
            ("Es gibt kein Buch mit der ID " ++ JS.integer_toString i ++ "."))).
Proof.
  intros Hno. unfold findById, bind, call_buildId, getOne, ret, throw.
  cbn [param_id param_mitAbbildungen buildId SpecQueryBuilder.queryBuilder].
  unfold SpecQueryBuilder.buildId. cbn [build_id build_mitAbbildungen].
  rewrite (filter_id_absent _ i Hno). reflexivity.
Qed.

Lemma buch_vorhanden_dec (rows : list Buch) (i : Z) :
  (exists b, In b rows /\ id b = i) \/ ~ (exists b, In b rows /\ id b = i).
Proof.
  induction rows as [| h t IH].
  - right. intros [b [[] _]].
  - destruct (Z.eq_dec (id h) i) as [E | NE].
    + left. exists h. split; [now left | assumption].
    + destruct IH as [[b [Hin Hb]] | Hno].
      * left. exists b. split; [now right | assumption].
      * right. intros [b [[-> | Hin] Hb]]; [contradiction |].
        apply Hno. now exists b.
Qed.

(** C2: without criteria, and with a criteria object that has no key,
    [find] returns all Books of the store, for every store; the outcome is
    a returned list, never an exception, and on an empty store it is the
    empty list. *)
Theorem find_without_criteria_returns_all (env : Umgebung) :
  ausgang (find buchProps qb JSON_stringify None env)
  = inr (SpecQueryBuilder.alle_buecher (datenbank env))
  /\ ausgang (find buchProps qb JSON_stringify (Some []) env)
     = inr (SpecQueryBuilder.alle_buecher (datenbank env))
  /\ (forall abb fs,
        ausgang (find buchProps qb JSON_stringify None
                   (mkUmgebung (mkDatenbank [] abb) fs)) = inr []
        /\ ausgang (find buchProps qb JSON_stringify (Some [])
                      (mkUmgebung (mkDatenbank [] abb) fs)) = inr []).
Proof.
  destruct (find_unfiltered_run buchProps qb JSON_stringify env) as [H1 H2].
  rewrite H1, H2. unfold ausgang, snd. rewrite build_empty_criteria.
  repeat split.
Qed.

(** C9: the resolver of the GraphQL query 'buch' hands only the id to the
    read service; the one query built is [buildId] with [mitAbbildungen]
    false, and a Book returned by the resolver has its images absent. *)
Theorem resolver_findById_never_loads_images (env : Umgebung) (idInput : IdInput) :
  Resolver.findById qb idInput env
  = findById qb {| param_id := input_id idInput;
                   param_mitAbbildungen := None |} env
  /\ spur (Resolver.findById qb idInput env)
     = [BuildId {| build_id := input_id idInput;
                   build_mitAbbildungen := false |}; GetOne]
  /\ match ausgang (Resolver.findById qb idInput env) with
     | inr buch => abbildungen buch = None
     | inl _ => True
     end.
Proof.
  unfold Resolver.findById, findById, bind, call_buildId, getOne, ret, throw.
  cbn [param_id param_mitAbbildungen buildId SpecQueryBuilder.queryBuilder].
  unfold SpecQueryBuilder.buildId. cbn [build_id build_mitAbbildungen].
  destruct (firstn 1 (filter (fun b => id b =? input_id idInput)
                        (buch_tabelle (datenbank env)))) as [| b rest];
    repeat split.
Qed.

End MitSpecQueryBuilder.

(* ===================================================================== *)
(** * Properties of the rendering of numbers *)
(* ===================================================================== *)

Section Strings.

Lemma append_assoc (a b c : string) : (a ++ b) ++ c = a ++ (b ++ c).
Proof. induction a as [| x a IH]; simpl; [reflexivity | now rewrite IH]. Qed.

Lemma length_append (a b : string) :
  String.length (a ++ b) = (String.length a + String.length b)%nat.
Proof. induction a as [| x a IH]; simpl; [reflexivity | now rewrite IH]. Qed.

Lemma substring_all (b : string) :
  String.substring 0 (String.length b) b = b.
Proof. induction b as [| x b IH]; simpl; [reflexivity | now rewrite IH]. Qed.

Lemma substring_append_left (a b : string) :
  String.substring 0 (String.length a) (a ++ b) = a.
Proof.
  induction a as [| x a IH]; simpl.
  - now destruct b.
  - now rewrite IH.
Qed.

Lemma substring_append_right (a b : string) :
  String.substring (String.length a) (String.length b) (a ++ b) = b.
Proof.
  induction a as [| x a IH]; simpl; [apply substring_all | exact IH].
Qed.

End Strings.

Section DecimalDigits.

Local Open Scope N_scope.

Lemma decimal_digits_aux_acc (fuel : nat) :
  forall n acc,
    JS.decimal_digits_aux fuel n acc
    = (JS.decimal_digits_aux fuel n EmptyString ++ acc)%string.
Proof.
  induction fuel as [| fuel IH]; intros n acc; simpl; [reflexivity |].
  destruct (n / 10 =? 0); [reflexivity |].
  rewrite (IH _ (String _ acc)), (IH _ (String _ EmptyString)).
  now rewrite append_assoc.
Qed.

(** Any fuel that covers the decimal length gives the same digits. *)
Lemma decimal_digits_aux_fuel (f1 : nat) :
  forall f2 n acc,
    n < 10 ^ N.of_nat (S f1) -> n < 10 ^ N.of_nat (S f2) ->
    JS.decimal_digits_aux (S f1) n acc = JS.decimal_digits_aux (S f2) n acc.
Proof.
  induction f1 as [| f1 IH]; intros f2 n acc H1 H2.
  - assert (E : n / 10 = 0) by (apply N.div_small; exact H1).
    simpl. rewrite E. reflexivity.
  - cbn [JS.decimal_digits_aux].
    destruct (n / 10 =? 0) eqn:E; [reflexivity |].
    apply N.eqb_neq in E.
    destruct f2 as [| f2].
    + exfalso. apply E. apply N.div_small. exact H2.
    + apply IH.
      * apply N.Div0.div_lt_upper_bound.
        rewrite <- N.pow_succ_r'. now rewrite <- Nat2N.inj_succ.
      * apply N.Div0.div_lt_upper_bound.
        rewrite <- N.pow_succ_r'. now rewrite <- Nat2N.inj_succ.
Qed.

Lemma lt_pow10_log2 (n : N) : n < 10 ^ N.of_nat (S (N.to_nat (N.log2 n))).
Proof.
  rewrite Nat2N.inj_succ, N2Nat.id.
  destruct (N.eq_dec n 0) as [-> | Hn]; [reflexivity |].
  apply N.lt_le_trans with (2 ^ N.succ (N.log2 n)).
  - apply N.log2_spec. lia.
  - apply N.pow_le_mono_l. lia.
Qed.

Lemma decimal_digits_small (n : N) :
  n < 10 -> JS.decimal_digits n = String (JS.digit_char n) EmptyString.
Proof.
  intros H. unfold JS.decimal_digits. cbn [JS.decimal_digits_aux].
  rewrite (N.div_small n 10 H), (N.mod_small n 10 H). reflexivity.
Qed.

Lemma decimal_digits_step (n : N) :
  10 <= n ->
  JS.decimal_digits n
  = (JS.decimal_digits (n / 10)
     ++ String (JS.digit_char (n mod 10)) EmptyString)%string.
Proof.
  intros H. unfold JS.decimal_digits.
  assert (Hq : n / 10 <> 0).
  { intros E. apply N.div_small_iff in E; lia. }
  cbn [JS.decimal_digits_aux].
  apply N.eqb_neq in Hq. rewrite Hq.
  rewrite decimal_digits_aux_acc. f_equal.
  destruct (N.to_nat (N.log2 n)) as [| f] eqn:Ef.
  - exfalso.
    assert (Hl : N.log2 n = 0) by lia.
    assert (H8 : N.log2 8 <= N.log2 n) by (apply N.log2_le_mono; lia).
    rewrite Hl in H8. vm_compute in H8. now apply H8.
  - apply decimal_digits_aux_fuel.
    + apply N.Div0.div_lt_upper_bound.
      rewrite <- N.pow_succ_r', <- Nat2N.inj_succ, <- Ef.
      apply lt_pow10_log2.
    + apply lt_pow10_log2.
Qed.

Lemma decimal_digits_nonempty (n : N) :
  (1 <= String.length (JS.decimal_digits n))%nat.
Proof.
  destruct (N.lt_ge_cases n 10) as [H | H].
  - rewrite (decimal_digits_small n H). simpl. lia.
  - rewrite (decimal_digits_step n H), length_append. simpl. lia.
Qed.

(** The two rightmost digits of a number of at least three digits. *)
Lemma decimal_digits_hundreds (n : N) :
  100 <= n ->
  JS.decimal_digits n
  = (JS.decimal_digits (n / 100)
     ++ String (JS.digit_char ((n / 10) mod 10))
          (String (JS.digit_char (n mod 10)) EmptyString))%string.
Proof.
  intros H.
  rewrite (decimal_digits_step n) by lia.
  rewrite (decimal_digits_step (n / 10)).
  - rewrite N.Div0.div_div. change (10 * 10) with 100.
    now rewrite append_assoc.
  - apply N.div_le_lower_bound; lia.
Qed.

End DecimalDigits.

Section ToFixed.

Variable Number_toString : JS.number -> string.

(** Steps 10.b to 10.d of [toFixed] for two fraction digits: padding with
    zeros and splitting before the last two digits yields the digits of the
    hundreds, a point, and the two digits of the remainder. *)
Lemma toFixed_split_two (n : N) :
  let m := JS.decimal_digits n in
  let k := String.length m in
  let m' := if (k <=? 2)%nat then JS.repeat_char "0" (2 + 1 - k) ++ m else m in
  let k' := if (k <=? 2)%nat then (2 + 1)%nat else k in
  String.substring 0 (k' - 2) m' ++ "." ++ String.substring (k' - 2) 2 m'
  = JS.decimal_digits (n / 100) ++ "."
    ++ String (JS.digit_char ((n / 10) mod 10))
         (String (JS.digit_char (n mod 10)) EmptyString).
Proof.
  cbv zeta.
  destruct (N.lt_ge_cases n 10) as [H10 | H10];
    [| destruct (N.lt_ge_cases n 100) as [H100 | H100]].
  - rewrite (decimal_digits_small n H10).
    rewrite (N.div_small n 100) by lia.
    rewrite (N.div_small n 10 H10), (N.mod_small n 10 H10).
    generalize (JS.digit_char n) as c. intros c. reflexivity.
  - rewrite (decimal_digits_step n H10).
    assert (Hq : (n / 10 < 10)%N) by (apply N.Div0.div_lt_upper_bound; lia).
    rewrite (decimal_digits_small (n / 10) Hq).
    rewrite (N.div_small n 100) by lia.
    rewrite (N.mod_small (n / 10) 10 Hq).
    generalize (JS.digit_char (n / 10)) as c1.
    generalize (JS.digit_char (n mod 10)) as c0. intros c0 c1. reflexivity.
  - rewrite (decimal_digits_hundreds n H100).
    set (a := JS.decimal_digits (n / 100)).
    set (b := String (JS.digit_char ((n / 10) mod 10))
                (String (JS.digit_char (n mod 10)) EmptyString)).
    assert (Ha : (1 <= String.length a)%nat) by apply decimal_digits_nonempty.
    assert (Hb : String.length b = 2%nat) by reflexivity.
    rewrite length_append, Hb.
    replace (String.length a + 2 <=? 2)%nat with false
      by (symmetry; apply Nat.leb_gt; lia).
    replace (String.length a + 2 - 2)%nat with (String.length a) by lia.
    rewrite substring_append_left.
    rewrite <- Hb at 1. rewrite substring_append_right. reflexivity.
Qed.

Lemma abs_den_pos (x : JS.number) : 0 < JS.abs_den x.
Proof.
  destruct x as [s | s | | s m e]; unfold JS.abs_den; try lia.
  destruct (0 <=? e) eqn:E; [lia |].
  apply Z.leb_gt in E. apply Z.pow_pos_nonneg; lia.
Qed.

Lemma abs_num_nonneg (x : JS.number) : 0 <= JS.abs_num x.
Proof.
  destruct x as [s | s | | s m e]; unfold JS.abs_num; try lia.
  destruct (0 <=? e) eqn:E; [| lia].
  apply Z.leb_le in E. apply Z.mul_nonneg_nonneg; [lia |].
  apply Z.pow_nonneg. lia.
Qed.

(** The integer chosen by [toFixed] is the one nearest to the scaled
    absolute value, the larger one of two equally near. *)
Lemma toFixed_n_nearest (x : JS.number) (f : nat) :
  0 <= JS.toFixed_n x f
  /\ 2 * JS.abs_num x * 10 ^ Z.of_nat f - JS.abs_den x
     < 2 * JS.toFixed_n x f * JS.abs_den x
     <= 2 * JS.abs_num x * 10 ^ Z.of_nat f + JS.abs_den x.
Proof.
  unfold JS.toFixed_n.
  pose proof (abs_den_pos x) as Hd. pose proof (abs_num_nonneg x) as Hn.
  set (d := JS.abs_den x) in *. set (a := JS.abs_num x) in *.
  assert (Hp : 0 <= 10 ^ Z.of_nat f) by (apply Z.pow_nonneg; lia).
  set (p := 10 ^ Z.of_nat f) in *.
  assert (Ha : 0 <= 2 * a * p) by nia.
  set (t := 2 * a * p) in *.
  pose proof (Z.div_mod (t + d) (2 * d) ltac:(lia)) as Hdm.
  pose proof (Z.mod_pos_bound (t + d) (2 * d) ltac:(lia)) as Hm.
  assert (Hq : 0 <= (t + d) / (2 * d)) by (apply Z.div_pos; lia).
  set (q := (t + d) / (2 * d)) in *.
  split; [exact Hq |]. nia.
Qed.

(** [toFixed(2)] on a finite number of magnitude below 10^21. *)
Lemma toFixed_two (x : JS.number) :
  JS.Number_isFinite x = true ->
  JS.at_least_1e21 x = false ->
  JS.toFixed Number_toString x 2
  = (if JS.is_negative x then "-" else "")
    ++ JS.decimal_digits (Z.to_N (JS.toFixed_n x 2) / 100) ++ "."
    ++ String (JS.digit_char ((Z.to_N (JS.toFixed_n x 2) / 10) mod 10))
         (String (JS.digit_char (Z.to_N (JS.toFixed_n x 2) mod 10)) EmptyString).
Proof.
  intros Hfin Hsmall. unfold JS.toFixed.
  rewrite Hsmall.
  destruct x as [s | s | | s m e]; try discriminate Hfin;
    cbv zeta; apply f_equal; apply toFixed_split_two.
Qed.

End ToFixed.

(* ===================================================================== *)
(** * Rounding of binary64 products *)
(* ===================================================================== *)

Section Binary64.










Lemma hundert_binary64 :
  JS.Number_of_Z 100 = S754_finite false 7036874417766400 (-46).
Proof. reflexivity. Qed.


End Binary64.

(* ===================================================================== *)
(** * The field rabatt of the resolver *)
(* ===================================================================== *)

Section Rabatt.

Variable Number_toString : JS.number -> string.

(** The literal 0.1 denotes the binary64 value nearest to one tenth:
    it is the quotient 1 / 10 as IEEE 754 rounds it, and it differs from
    one tenth by less than half a unit in the last place. *)
Lemma zehntel_is_one_tenth :
  JS.Number_div (JS.Number_of_Z 1) (JS.Number_of_Z 10) = Beispiel.zehntel
  /\ Z.abs (10 * JS.abs_num Beispiel.zehntel - JS.abs_den Beispiel.zehntel) < 5.
Proof. split; vm_compute; reflexivity. Qed.


(** The field for any discount whose product with 100 is finite and of
    magnitude below 10^21, negative discounts included. *)
Lemma rabatt_rendered_finite (buch : Buch) (short : option bool) :
  let x := JS.Number_mul
             (match rabatt buch with Some r => r | None => JS.Number_of_Z 0 end)
             (JS.Number_of_Z 100) in
  let n := JS.toFixed_n x 2 in
  JS.Number_isFinite x = true ->
  JS.at_least_1e21 x = false ->
  Resolver.rabatt Number_toString buch short
  = (if JS.is_negative x then "-" else "")
    ++ JS.decimal_digits (Z.to_N n / 100) ++ "."
    ++ String (JS.digit_char ((Z.to_N n / 10) mod 10))
         (String (JS.digit_char (Z.to_N n mod 10)) EmptyString)
    ++ " "
    ++ match short with Some false => "Prozent" | _ => "%" end.
Proof.
  intros x n Hfin Hsmall. unfold Resolver.rabatt. fold x.
  rewrite (toFixed_two Number_toString x Hfin Hsmall). fold n.
  rewrite !append_assoc. reflexivity.
Qed.


End Rabatt.

(* ===================================================================== *)
(** * Concrete runs *)
(* ===================================================================== *)

(** On an empty store the unfiltered search returns the empty list. *)
Example find_on_empty_store :
  find Beispiel.buchProps Beispiel.queryBuilder Beispiel.JSON_stringify
    None Beispiel.leere_env
  = ([Build []; GetMany], inr []).
Proof. reflexivity. Qed.

(** The identifier of a Book that is not in the store. *)
Example findById_unknown_id :
  findById Beispiel.queryBuilder
    {| param_id := 999; param_mitAbbildungen := None |} Beispiel.env
  = ([BuildId {| build_id := 999; build_mitAbbildungen := false |}; GetOne],
     inl (NotFoundException "Es gibt kein Buch mit der ID 999.")).
Proof. vm_compute. reflexivity. Qed.

(** An image that is missing, and one that is there. *)
Example findImageByName_missing :
  ausgang (findImageByName "../secret.txt" Beispiel.env)
  = inl (NotFoundException "Image not found for name: ../secret.txt")
  /\ ausgang (findImageByName "cover.png" Beispiel.env) = inr Beispiel.bild.
Proof. split; vm_compute; reflexivity. Qed.

(** The long form of the discount, and the discount of a Book without one. *)
Example rabatt_prozent :
  Resolver.rabatt Beispiel.Number_toString Beispiel.buch1 (Some false)
  = "10.00 Prozent"
  /\ Resolver.rabatt Beispiel.Number_toString Beispiel.buch2 None = "0.00 %".
Proof. split; vm_compute; reflexivity. Qed.

(** C1, as the specification states it, fails: for the criteria
    [{ foo: "bar" }] the failure of [find] is a [NotFoundException], the same
    kind of failure as "no rows", and not an [InvalidCriteria] failure. *)
Lemma find_unrecognised_key_is_not_InvalidCriteria :
  ~ InvalidCriteria_failure
      (unbekannte_keys Beispiel.buchProps [("foo", WString "bar")])
      (ausgang (find Beispiel.buchProps Beispiel.queryBuilder
                  Beispiel.JSON_stringify
                  (Some [("foo", WString "bar")]) Beispiel.env)).
Proof.
  intros [e [He [Hkind _]]]. vm_compute in He.
  injection He as <-. exact (Hkind _ eq_refl).
Qed.

(** The message of that failure does not name the offending key either. *)
Lemma find_unrecognised_key_message_omits_key :
  unbekannte_keys Beispiel.buchProps [("foo", WString "bar")] = ["foo"]
  /\ JS.String_includes "Ungueltige Suchkriterien" "foo" = false.
Proof. split; reflexivity. Qed.

Lemma foo_unrecognised :
  exists key, In key (Object_keys [("foo", WString "bar")])
              /\ ~ erkannt Beispiel.buchProps key.
Proof.
  exists "foo". split; [now left |]. apply erkanntb_false. reflexivity.
Defined.

Lemma find_unrecognised_key_fails_witness :
  ausgang (find Beispiel.buchProps Beispiel.queryBuilder Beispiel.JSON_stringify
             (Some [("foo", WString "bar")]) Beispiel.env)
  = inl (NotFoundException "Ungueltige Suchkriterien").
Proof.
  apply (find_unrecognised_key_fails Beispiel.buchProps Beispiel.queryBuilder
           Beispiel.JSON_stringify [("foo", WString "bar")] Beispiel.env).
  exact foo_unrecognised.
Defined.

Lemma find_unrecognised_key_runs_no_query_witness :
  spur (find Beispiel.buchProps Beispiel.queryBuilder Beispiel.JSON_stringify
          (Some [("foo", WString "bar")]) Beispiel.env) = [].
Proof.
  apply (find_unrecognised_key_runs_no_query Beispiel.buchProps
           Beispiel.queryBuilder Beispiel.JSON_stringify
           [("foo", WString "bar")] Beispiel.env).
  exact foo_unrecognised.
Defined.

Lemma find_validated_criteria_witness :
  ausgang (find Beispiel.buchProps Beispiel.queryBuilder Beispiel.JSON_stringify
             (Some [("titel", WString "Java")]) Beispiel.env)
  = inr [Beispiel.buch1]
  /\ ausgang (find Beispiel.buchProps Beispiel.queryBuilder Beispiel.JSON_stringify
                (Some [("titel", WString "Gamma")]) Beispiel.env)
     = inl (NotFoundException "Keine Buecher gefunden: {titel}").
Proof.
  split.
  - apply (find_validated_criteria Beispiel.buchProps Beispiel.queryBuilder
             Beispiel.JSON_stringify [("titel", WString "Java")] Beispiel.env);
      [discriminate | reflexivity | discriminate].
  - apply (find_validated_criteria Beispiel.buchProps Beispiel.queryBuilder
             Beispiel.JSON_stringify [("titel", WString "Gamma")] Beispiel.env);
      [discriminate | reflexivity | reflexivity].
Defined.

Lemma beispiel_ids_unique :
  NoDup (map id (buch_tabelle (datenbank Beispiel.env))).
Proof.
  simpl. constructor.
  - intros [H | []]. discriminate H.
  - constructor; [intros [] | constructor].
Defined.


(* ===================================================================== *)
(** * Further properties of [find] *)
(* ===================================================================== *)

Section FindMore.

Variable buchProps : list string.
Variable queryBuilder : QueryBuilder.
Variable JSON_stringify : Suchkriterien -> string.

Local Abbreviation suche := (find buchProps queryBuilder JSON_stringify).

Lemma checkKeys_nil : checkKeys buchProps [] = true.
Proof. reflexivity. Qed.

Lemma keys_dec (k : Suchkriterien) :
  Object_keys k = [] \/ Object_keys k <> [].
Proof. destruct (Object_keys k); [now left | right; discriminate]. Qed.

Lemma Object_keys_nil (k : Suchkriterien) : Object_keys k = [] -> k = [].
Proof. destruct k; [reflexivity | discriminate]. Qed.

(** X1: the calls of [find]: one query, built from the caller's criteria (from
    the empty object when there are none) and run once, unless the criteria
    fail validation, in which case there is no call at all. *)
Theorem find_builds_one_query (suchkriterien : option Suchkriterien) (env : Umgebung) :
  spur (suche suchkriterien env)
  = (let k := match suchkriterien with Some k => k | None => [] end in
     if checkKeys buchProps (Object_keys k) then [Build k; GetMany] else []).
Proof.
  destruct suchkriterien as [k |]; [| reflexivity].
  cbv zeta. destruct (keys_dec k) as [E | NE].
  - apply Object_keys_nil in E. subst k. reflexivity.
  - destruct (checkKeys buchProps (Object_keys k)) eqn:Hc.
    + now rewrite (find_validated_run buchProps queryBuilder JSON_stringify k env NE Hc).
    + apply checkKeys_false in Hc.
      now rewrite (find_unrecognised_run buchProps queryBuilder JSON_stringify k env Hc).
Qed.

(** X2: with criteria that have at least one key, a list returned by [find] is
    never empty. *)
Theorem find_filtered_result_nonempty
    (k : Suchkriterien) (env : Umgebung) (buecher : list Buch) :
  Object_keys k <> [] ->
  ausgang (suche (Some k) env) = inr buecher ->
  buecher <> [].
Proof.
  intros NE H. destruct (checkKeys buchProps (Object_keys k)) eqn:Hc.
  - rewrite (find_validated_run buchProps queryBuilder JSON_stringify k env NE Hc) in H.
    cbn [ausgang snd] in H.
    destruct (build queryBuilder k (datenbank env)); [discriminate H |].
    injection H as <-. discriminate.
  - apply checkKeys_false in Hc.
    rewrite (find_unrecognised_run buchProps queryBuilder JSON_stringify k env Hc) in H.
    discriminate H.
Qed.

(** X3: [find] fails with the message 'Ungueltige Suchkriterien' exactly when
    the criteria hold an unrecognised key; a search that found nothing never
    carries that message. *)
Theorem find_invalid_message_iff (suchkriterien : option Suchkriterien) (env : Umgebung) :
  ausgang (suche suchkriterien env)
  = inl (NotFoundException "Ungueltige Suchkriterien")
  <-> exists k, suchkriterien = Some k
                /\ exists key, In key (Object_keys k) /\ ~ erkannt buchProps key.
Proof.
  split.
  - destruct suchkriterien as [k |]; [| discriminate].
    intros H. exists k. split; [reflexivity |].
    destruct (keys_dec k) as [E | NE].
    + apply Object_keys_nil in E. subst k. discriminate H.
    + destruct (checkKeys buchProps (Object_keys k)) eqn:Hc.
      * rewrite (find_validated_run buchProps queryBuilder JSON_stringify k env NE Hc) in H.
        cbn [ausgang snd] in H.
        destruct (build queryBuilder k (datenbank env)); discriminate H.
      * now apply checkKeys_false.
  - intros [k [-> Hbad]].
    now rewrite (find_unrecognised_run buchProps queryBuilder JSON_stringify k env Hbad).
Qed.

(** X4: a [NotFoundException] leaves [find] only for criteria with at least
    one key, and only with one of two messages: the fixed message of the
    failed validation, or, when the keys are valid and the query has no
    row, the message that carries the criteria.  Without criteria, and with
    an empty criteria object, [find] throws no [NotFoundException]. *)
Theorem find_NotFound_only_for_criteria
    (suchkriterien : option Suchkriterien) (env : Umgebung) (message : string) :
  ausgang (suche suchkriterien env) = inl (NotFoundException message) ->
  exists k,
    suchkriterien = Some k /\ Object_keys k <> []
    /\ ((message = "Ungueltige Suchkriterien"
         /\ checkKeys buchProps (Object_keys k) = false)
        \/ (message = "Keine Buecher gefunden: " ++ JSON_stringify k
            /\ checkKeys buchProps (Object_keys k) = true
            /\ build queryBuilder k (datenbank env) = [])).
Proof.
  destruct suchkriterien as [k |]; [| discriminate].
  intros H. exists k. split; [reflexivity |].
  destruct (keys_dec k) as [E | NE].
  - apply Object_keys_nil in E. subst k. discriminate H.
  - split; [exact NE |].
    destruct (checkKeys buchProps (Object_keys k)) eqn:Hc.
    + rewrite (find_validated_run buchProps queryBuilder JSON_stringify k env NE Hc) in H.
      cbn [ausgang snd] in H.
      destruct (build queryBuilder k (datenbank env)); [| discriminate H].
      injection H as <-. right. repeat split.
    + pose proof Hc as Hbad. apply checkKeys_false in Hbad.
      rewrite (find_unrecognised_run buchProps queryBuilder JSON_stringify k env Hbad) in H.
      injection H as <-. left. split; reflexivity.
Qed.

End FindMore.

(* ===================================================================== *)
(** * Further properties of the criteria validator *)
(* ===================================================================== *)

Section CheckKeysMore.

Variable buchProps : list string.

(** X5: validating two lists of keys together is validating each of them; the
    order of the keys and repeated keys make no difference. *)
Theorem checkKeys_app_permutation :
  (forall keys1 keys2,
     checkKeys buchProps (keys1 ++ keys2)%list
     = checkKeys buchProps keys1 && checkKeys buchProps keys2)
  /\ (forall keys1 keys2,
        Permutation keys1 keys2 ->
        checkKeys buchProps keys1 = checkKeys buchProps keys2)
  /\ (forall keys1 keys2,
        incl keys1 keys2 ->
        checkKeys buchProps keys2 = true -> checkKeys buchProps keys1 = true).
Proof.
  split; [| split].
  - intros keys1 keys2. rewrite !checkKeys_forallb. apply forallb_app.
  - intros keys1 keys2 HP. rewrite !checkKeys_forallb.
    induction HP as [| x l l' _ IH | x y l | l l' l'' _ IH1 _ IH2]; simpl.
    + reflexivity.
    + now rewrite IH.
    + now rewrite !andb_assoc, (andb_comm (erkanntb buchProps y)).
    + now rewrite IH1.
  - intros keys1 keys2 Hincl H2. apply checkKeys_true.
    intros key Hin. apply (proj1 (checkKeys_true buchProps keys2) H2). now apply Hincl.
Qed.

(** X6: criteria that are valid stay valid when the entity gains properties. *)
Theorem checkKeys_monotone (buchProps' : list string) (keys : list string) :
  incl buchProps buchProps' ->
  checkKeys buchProps keys = true ->
  checkKeys buchProps' keys = true.
Proof.
  intros Hincl H. apply checkKeys_true. intros key Hin.
  destruct (proj1 (checkKeys_true buchProps keys) H key Hin) as [Hp | Hr].
  - left. now apply Hincl.
  - right. exact Hr.
Qed.

End CheckKeysMore.


(* ===================================================================== *)
(** * Decimal notation and [ID_PATTERN] *)
(* ===================================================================== *)

Section IdPattern.

Local Open Scope N_scope.

Lemma N_of_digit_char (d : N) : d < 10 -> N_of_ascii (JS.digit_char d) = 48 + d.
Proof. intros H. unfold JS.digit_char. apply N_ascii_embedding. lia. Qed.

Lemma ziffer_spec (c : ascii) :
  RE2.ziffer c = true <-> 48 <= N_of_ascii c <= 57.
Proof.
  unfold RE2.ziffer, RE2.bereich.
  change (N_of_ascii "0") with 48. change (N_of_ascii "9") with 57.
  rewrite andb_true_iff, !N.leb_le. tauto.
Qed.

Lemma bereich_1_9_spec (c : ascii) :
  RE2.bereich "1" "9" c = true <-> 49 <= N_of_ascii c <= 57.
Proof.
  unfold RE2.bereich.
  change (N_of_ascii "1") with 49. change (N_of_ascii "9") with 57.
  rewrite andb_true_iff, !N.leb_le. tauto.
Qed.

Lemma digit_char_of_ziffer (c : ascii) :
  RE2.ziffer c = true -> JS.digit_char (N_of_ascii c - 48) = c.
Proof.
  intros H. apply ziffer_spec in H. unfold JS.digit_char.
  replace (48 + (N_of_ascii c - 48)) with (N_of_ascii c) by lia.
  apply ascii_N_embedding.
Qed.

Lemma alle_ziffern_app (a b : string) :
  alle_ziffern (a ++ b) = alle_ziffern a && alle_ziffern b.
Proof.
  induction a as [| c a IH]; simpl; [reflexivity |].
  now rewrite IH, andb_assoc.
Qed.

Lemma dezimalwert_app (a b : string) :
  forall acc, dezimalwert (a ++ b) acc = dezimalwert b (dezimalwert a acc).
Proof. induction a as [| c a IH]; intros acc; simpl; [reflexivity | apply IH]. Qed.

Lemma dezimalwert_ge (rest : string) :
  forall v, 1 <= v -> 1 <= dezimalwert rest v.
Proof.
  induction rest as [| x rest IH]; intros v Hv; cbn [dezimalwert];
    [exact Hv | apply IH; lia].
Qed.

(** The digits of a positive number: a first digit from 1 to 9, then digits. *)
Lemma decimal_digits_shape (n : N) :
  0 < n ->
  exists c rest,
    JS.decimal_digits n = String c rest
    /\ RE2.bereich "1" "9" c = true /\ alle_ziffern rest = true.
Proof.
  induction n as [n IH] using (well_founded_induction N.lt_wf_0). intros Hn.
  destruct (N.lt_ge_cases n 10) as [H | H].
  - rewrite (decimal_digits_small n H). exists (JS.digit_char n), EmptyString.
    repeat split. apply bereich_1_9_spec. rewrite N_of_digit_char by exact H. lia.
  - rewrite (decimal_digits_step n H).
    destruct (IH (n / 10)) as [c [rest [E [Hc Hrest]]]].
    + apply N.div_lt; lia.
    + apply N.div_str_pos. lia.
    + rewrite E. exists c, (rest ++ String (JS.digit_char (n mod 10)) EmptyString).
      repeat split; [exact Hc |].
      rewrite alle_ziffern_app, Hrest. cbn [alle_ziffern andb].
      rewrite andb_true_r. apply ziffer_spec.
      assert (Hm : n mod 10 < 10) by (apply N.mod_lt; lia).
      rewrite N_of_digit_char by exact Hm.
      generalize dependent (n mod 10). intros r Hm. lia.
Qed.

(** Reading digits and writing them again. *)
Lemma decimal_digits_dezimalwert (rest : string) :
  forall v, 1 <= v -> alle_ziffern rest = true ->
    JS.decimal_digits (dezimalwert rest v) = (JS.decimal_digits v ++ rest)%string.
Proof.
  induction rest as [| c rest IH]; intros v Hv Hd; cbn [dezimalwert].
  - clear. induction (JS.decimal_digits v) as [| x s IHs]; simpl; congruence.
  - cbn [alle_ziffern] in Hd. apply andb_true_iff in Hd. destruct Hd as [Hc Hrest].
    pose proof (proj1 (ziffer_spec c) Hc) as Hr.
    set (d := N_of_ascii c - 48) in *.
    rewrite IH by (try exact Hrest; lia).
    rewrite (decimal_digits_step (10 * v + d)) by lia.
    replace ((10 * v + d) / 10) with v.
    2:{ apply N.div_unique with d; lia. }
    replace ((10 * v + d) mod 10) with d.
    2:{ apply N.mod_unique with v; lia. }
    subst d. rewrite (digit_char_of_ziffer c Hc).
    now rewrite append_assoc.
Qed.

(** Writing a number and reading it again. *)
Lemma dezimalwert_decimal_digits (n : N) :
  dezimalwert (JS.decimal_digits n) 0 = n.
Proof.
  induction n as [n IH] using (well_founded_induction N.lt_wf_0).
  destruct (N.lt_ge_cases n 10) as [H | H].
  - rewrite (decimal_digits_small n H). cbn [dezimalwert].
    rewrite N_of_digit_char by exact H. lia.
  - rewrite (decimal_digits_step n H), dezimalwert_app, IH by (apply N.div_lt; lia).
    cbn [dezimalwert].
    assert (Hm : n mod 10 < 10) by (apply N.mod_lt; lia).
    rewrite N_of_digit_char by exact Hm.
    pose proof (N.div_mod n 10 ltac:(discriminate)) as Hdm.
    set (r := n mod 10) in *. set (q := n / 10) in *. clearbody r q. lia.
Qed.

(** The states the matcher runs through on [ID_PATTERN]. *)
Lemma test_Conc_Void (r : RE2.Regexp) (s : string) :
  RE2.test (RE2.Conc RE2.Void r) s = false.
Proof. induction s as [| c s IH]; [reflexivity | exact IH]. Qed.

Lemma test_Alt (s : string) :
  forall r1 r2, RE2.test (RE2.Alt r1 r2) s = RE2.test r1 s || RE2.test r2 s.
Proof. induction s as [| c s IH]; intros r1 r2; [reflexivity | apply IH]. Qed.

Lemma test_ziffern (s : string) :
  RE2.test (RE2.Conc RE2.Eps (RE2.Star (RE2.Klasse RE2.ziffer))) s
  = alle_ziffern s.
Proof.
  induction s as [| c s IH]; [reflexivity |].
  cbn [RE2.test RE2.der RE2.nullable alle_ziffern].
  rewrite test_Alt, test_Conc_Void. cbn [orb].
  destruct (RE2.ziffer c); [exact IH | apply test_Conc_Void].
Qed.

Lemma test_ID_PATTERN (s : string) :
  RE2.test ID_PATTERN s
  = match s with
    | EmptyString => false
    | String c rest => RE2.bereich "1" "9" c && alle_ziffern rest
    end.
Proof.
  destruct s as [| c rest]; [reflexivity |].
  unfold ID_PATTERN. cbn [RE2.test RE2.der RE2.nullable].
  destruct (RE2.bereich "1" "9" c); [apply test_ziffern | apply test_Conc_Void].
Qed.

End IdPattern.

Lemma integer_toString_pos (i : Z) :
  0 < i -> JS.integer_toString i = JS.decimal_digits (Z.to_N i).
Proof.
  intros H. unfold JS.integer_toString.
  replace (i <? 0) with false by (symmetry; apply Z.ltb_ge; lia).
  now rewrite Z.abs_eq by lia.
Qed.

Section Dezimaldarstellung.

Lemma buch_eq (r b : Buch) :
  gleiche_spalten r b -> abbildungen r = abbildungen b -> r = b.
Proof.
  destruct r, b. unfold gleiche_spalten. cbn.
  intros (? & ? & ? & ? & ? & ? & ? & ? & ? & ? & ?) ?. subst. reflexivity.
Qed.

Lemma ziffer_In (c : ascii) : RE2.ziffer c = true <-> In c dezimalziffern.
Proof.
  split.
  - intros H. apply ziffer_spec in H.
    rewrite <- (ascii_N_embedding c).
    assert (Hc : (N_of_ascii c = 48 \/ N_of_ascii c = 49 \/ N_of_ascii c = 50
                  \/ N_of_ascii c = 51 \/ N_of_ascii c = 52 \/ N_of_ascii c = 53
                  \/ N_of_ascii c = 54 \/ N_of_ascii c = 55 \/ N_of_ascii c = 56
                  \/ N_of_ascii c = 57)%N) by lia.
    repeat destruct Hc as [-> | Hc]; try rewrite Hc; cbn; tauto.
  - intros H. cbn in H.
    repeat destruct H as [<- | H]; try reflexivity. contradiction.
Qed.

Lemma alle_ziffern_In (s : string) :
  alle_ziffern s = true
  <-> (forall c, In c (list_ascii_of_string s) -> In c dezimalziffern).
Proof.
  induction s as [| x s IH]; cbn [alle_ziffern list_ascii_of_string].
  - split; [intros _ c [] | reflexivity].
  - rewrite andb_true_iff, IH, ziffer_In. split.
    + intros [Hx Hs] c [<- | Hc]; auto.
    + intros H. split; [apply H; now left | intros c Hc; apply H; now right].
Qed.

Lemma dezimaldarstellung_decimal_digits (n : N) :
  dezimaldarstellung (JS.decimal_digits n) n.
Proof.
  unfold dezimaldarstellung.
  destruct (N.eq_dec n 0) as [-> | Hn].
  - repeat split.
    + discriminate.
    + apply alle_ziffern_In. reflexivity.
    + intros rest H. now injection H as <-.
  - destruct (decimal_digits_shape n) as [c [rest [E [Hc Hrest]]]]; [lia |].
    pose proof (proj1 (bereich_1_9_spec c) Hc) as Hr.
    repeat split.
    + rewrite E. discriminate.
    + apply alle_ziffern_In. rewrite E. cbn [alle_ziffern].
      rewrite Hrest, andb_true_r. apply ziffer_spec. lia.
    + rewrite E. intros rest' H. injection H as -> _.
      vm_compute in Hc. discriminate Hc.
    + apply dezimalwert_decimal_digits.
Qed.

Lemma dezimaldarstellung_unique (s : string) (n : N) :
  dezimaldarstellung s n -> s = JS.decimal_digits n.
Proof.
  intros (Hne & Hdig & Hzero & Hval).
  destruct s as [| c rest]; [congruence |].
  apply alle_ziffern_In in Hdig. cbn [alle_ziffern] in Hdig.
  apply andb_true_iff in Hdig. destruct Hdig as [Hc Hrest].
  pose proof (proj1 (ziffer_spec c) Hc) as Hr.
  destruct (N.eq_dec (N_of_ascii c) 48) as [E48 | N48].
  - assert (c = "0"%char) by (rewrite <- (ascii_N_embedding c), E48; reflexivity).
    subst c. rewrite (Hzero rest eq_refl) in *. cbn in Hval. now subst n.
  - cbn [dezimalwert] in Hval. change (10 * 0)%N with 0%N in Hval.
    rewrite N.add_0_l in Hval. subst n.
    rewrite (decimal_digits_dezimalwert rest (N_of_ascii c - 48)) by (try assumption; lia).
    rewrite decimal_digits_small by lia.
    now rewrite (digit_char_of_ziffer c Hc).
Qed.

Lemma ganzzahl_text_integer_toString (z : Z) :
  ganzzahl_text (JS.integer_toString z) z.
Proof.
  unfold JS.integer_toString, ganzzahl_text. destruct z as [| p | p]; cbn [Z.ltb Z.compare Z.abs append].
  - apply (dezimaldarstellung_decimal_digits 0).
  - apply (dezimaldarstellung_decimal_digits (N.pos p)).
  - eexists. split; [reflexivity |].
    apply (dezimaldarstellung_decimal_digits (N.pos p)).
Qed.

Lemma ganzzahl_text_unique (s : string) (z : Z) :
  ganzzahl_text s z -> s = JS.integer_toString z.
Proof.
  unfold JS.integer_toString, ganzzahl_text. destruct z as [| p | p]; cbn [Z.ltb Z.compare Z.abs append].
  - apply dezimaldarstellung_unique.
  - apply dezimaldarstellung_unique.
  - intros [t [-> Ht]]. now rewrite (dezimaldarstellung_unique t _ Ht).
Qed.

End Dezimaldarstellung.

(** X11: [ID_PATTERN] accepts exactly the decimal notations of the positive
    integers: at least one digit, digits only, no leading zero, value above
    zero.  What a template literal prints for a positive id within the safe
    integers matches, and a string that matches and whose value is a safe
    integer is what is printed for that value. *)
Theorem ID_PATTERN_positive_integers (s : string) :
  (RE2.test ID_PATTERN s = true
   <-> exists n : N, (0 < n)%N /\ dezimaldarstellung s n)
  /\ (forall i : Z,
        0 < i <= JS.MAX_SAFE_INTEGER ->
        RE2.test ID_PATTERN (JS.integer_toString i) = true)
  /\ (RE2.test ID_PATTERN s = true ->
      Z.of_N (dezimalwert s 0) <= JS.MAX_SAFE_INTEGER ->
      0 < Z.of_N (dezimalwert s 0)
      /\ s = JS.integer_toString (Z.of_N (dezimalwert s 0))).
Proof.
  assert (Hpos : forall n, (0 < n)%N ->
                           RE2.test ID_PATTERN (JS.decimal_digits n) = true).
  { intros n Hn. rewrite test_ID_PATTERN.
    destruct (decimal_digits_shape n Hn) as [c [rest [E [Hc Hrest]]]].
    now rewrite E, Hc, Hrest. }
  assert (Hmatch : RE2.test ID_PATTERN s = true ->
                   (0 < dezimalwert s 0)%N /\ dezimaldarstellung s (dezimalwert s 0)).
  { rewrite test_ID_PATTERN. destruct s as [| c rest]; [discriminate |].
    intros H. apply andb_true_iff in H. destruct H as [Hc Hrest].
    pose proof (proj1 (bereich_1_9_spec c) Hc) as Hr.
    assert (Hz : RE2.ziffer c = true) by (apply ziffer_spec; lia).
    split.
    - cbn [dezimalwert]. change (10 * 0)%N with 0%N. rewrite N.add_0_l.
      pose proof (dezimalwert_ge rest (N_of_ascii c - 48)%N ltac:(lia)). lia.
    - repeat split.
      + discriminate.
      + apply alle_ziffern_In. cbn [alle_ziffern]. now rewrite Hz, Hrest.
      + intros rest' H. injection H as -> _. vm_compute in Hc. discriminate Hc. }
  split; [| split].
  - split.
    + intros H. exists (dezimalwert s 0). now apply Hmatch.
    + intros [n [Hn Hs]]. rewrite (dezimaldarstellung_unique s n Hs). now apply Hpos.
  - intros i Hi. rewrite integer_toString_pos by lia. apply Hpos. lia.
  - intros H _. destruct (Hmatch H) as [Hn Hs]. split; [lia |].
    rewrite integer_toString_pos by lia. rewrite N2Z.id.
    now apply dezimaldarstellung_unique.
Qed.

(* ===================================================================== *)
(** * [findById] on the query builder of the specification *)
(* ===================================================================== *)

Section MitSpecQueryBuilderFindById.

Variable erfuellt : string -> Wert -> Buch -> bool.

Local Abbreviation qb := (SpecQueryBuilder.queryBuilder erfuellt).

Lemma lade_spalten (db : Datenbank) (mit : bool) (b : Buch) :
  gleiche_spalten (SpecQueryBuilder.lade db mit b) b.
Proof. repeat split. Qed.

(** C4: for a positive integer id and a store whose identifiers are unique,
    [findById] returns the Book of the store with that id when there is
    one (the very row when the images are not asked for), and fails with
    the [NotFoundException] whose message carries the decimal notation of
    the id if and only if the store holds no Book with that id. *)
Theorem findById_returns_the_book_or_not_found
    (env : Umgebung) (i : Z) (mit : option bool) :
  0 < i <= JS.MAX_SAFE_INTEGER ->
  NoDup (map id (buch_tabelle (datenbank env))) ->
  (forall b, In b (buch_tabelle (datenbank env)) -> id b = i ->
     exists r,
       ausgang (findById qb {| param_id := i; param_mitAbbildungen := mit |} env)
       = inr r
       /\ gleiche_spalten r b
       /\ abbildungen r
          = match mit with
            | Some true =>
                Some (filter (fun a => abbildung_buch_id a =? i)
                        (abbildung_tabelle (datenbank env)))
            | _ => None
            end)
  /\ (forall b, In b (buch_tabelle (datenbank env)) -> id b = i ->
        abbildungen b = None ->
        ausgang (findById qb {| param_id := i; param_mitAbbildungen := None |} env)
        = inr b)
  /\ (exists s,
        dezimaldarstellung s (Z.to_N i)
        /\ (ausgang (findById qb {| param_id := i; param_mitAbbildungen := mit |} env)
            = inl (NotFoundException ("Es gibt kein Buch mit der ID " ++ s ++ "."))
            <-> ~ (exists b, In b (buch_tabelle (datenbank env)) /\ id b = i))).
Proof.
  intros Hi Hnd. split; [| split].
  - intros b Hin <-.
    rewrite (findById_found_run erfuellt env b mit Hnd Hin). cbn [ausgang snd].
    eexists. split; [reflexivity |]. split; [apply lade_spalten |].
    destruct mit as [[|] |]; reflexivity.
  - intros b Hin <- Hb.
    rewrite (findById_found_run erfuellt env b None Hnd Hin). cbn [ausgang snd].
    f_equal. apply buch_eq; [apply lade_spalten | now rewrite Hb].
  - exists (JS.decimal_digits (Z.to_N i)).
    split; [apply dezimaldarstellung_decimal_digits |].
    rewrite <- (integer_toString_pos i) by lia.
    destruct (buch_vorhanden_dec (buch_tabelle (datenbank env)) i)
      as [[b [Hin Hb]] | Hno].
    + subst i. rewrite (findById_found_run erfuellt env b mit Hnd Hin).
      cbn [ausgang snd]. split; [discriminate |].
      intros Hno. exfalso. apply Hno. now exists b.
    + rewrite (findById_absent_run erfuellt env i mit Hno). cbn [ausgang snd].
      split; [intros _; exact Hno | reflexivity].
Qed.

(** C7: for a positive integer id of a Book in the store, [findById] with
    [mitAbbildungen] true returns that Book with its images populated: the
    field [abbildungen] holds the images of the store that are associated
    with the id; with [mitAbbildungen] false or omitted it returns the Book
    with the images absent, the omitted flag behaving as false. *)
Theorem findById_mitAbbildungen (env : Umgebung) (b : Buch) :
  0 < id b <= JS.MAX_SAFE_INTEGER ->
  NoDup (map id (buch_tabelle (datenbank env))) ->
  In b (buch_tabelle (datenbank env)) ->
  (exists r bilder,
     ausgang (findById qb {| param_id := id b; param_mitAbbildungen := Some true |} env)
     = inr r
     /\ gleiche_spalten r b
     /\ abbildungen r = Some bilder
     /\ bilder = filter (fun a => abbildung_buch_id a =? id b)
                   (abbildung_tabelle (datenbank env))
     /\ (forall a, In a bilder
                   <-> In a (abbildung_tabelle (datenbank env))
                       /\ abbildung_buch_id a = id b))
  /\ (exists r,
        ausgang (findById qb {| param_id := id b; param_mitAbbildungen := Some false |} env)
        = inr r
        /\ gleiche_spalten r b
        /\ abbildungen r = None)
  /\ findById qb {| param_id := id b; param_mitAbbildungen := None |} env
     = findById qb {| param_id := id b; param_mitAbbildungen := Some false |} env.
Proof.
  intros _ Hnd Hin.
  rewrite !(findById_found_run erfuellt env b _ Hnd Hin). cbn [ausgang snd].
  split; [| split].
  - eexists. eexists. split; [reflexivity |]. split; [apply lade_spalten |].
    split; [reflexivity |]. split; [reflexivity |].
    intros a. unfold SpecQueryBuilder.abbildungen_von.
    rewrite filter_In, Z.eqb_eq. reflexivity.
  - eexists. split; [reflexivity |]. split; [apply lade_spalten | reflexivity].
  - reflexivity.
Qed.

End MitSpecQueryBuilderFindById.

(* ===================================================================== *)
(** * [findById] over an arbitrary query builder *)
(* ===================================================================== *)

Section FindByIdMore.

Lemma append_cancel_point (a : string) :
  forall b, a ++ "." = b ++ "." -> a = b.
Proof.
  induction a as [| x a IH]; intros [| y b] H; simpl in H.
  - reflexivity.
  - injection H as _ H. destruct b; discriminate H.
  - injection H as _ H. destruct a; discriminate H.
  - injection H as -> H. f_equal. now apply IH.
Qed.

Lemma decimal_digits_inj (a b : N) :
  JS.decimal_digits a = JS.decimal_digits b -> a = b.
Proof.
  intros H. rewrite <- (dezimalwert_decimal_digits a), <- (dezimalwert_decimal_digits b).
  now rewrite H.
Qed.

Lemma decimal_digits_no_minus (n : N) (s : string) :
  JS.decimal_digits n <> String "-" s.
Proof.
  destruct (N.eq_dec n 0) as [-> | Hn]; [discriminate |].
  destruct (decimal_digits_shape n) as [c [rest [E [Hc _]]]]; [lia |].
  rewrite E. intros H. injection H as -> _.
  vm_compute in Hc. discriminate Hc.
Qed.

Lemma integer_toString_inj (i j : Z) :
  JS.integer_toString i = JS.integer_toString j -> i = j.
Proof.
  unfold JS.integer_toString.
  destruct (i <? 0) eqn:Hi, (j <? 0) eqn:Hj; cbn [append]; intros H.
  - injection H as H. apply decimal_digits_inj in H.
    apply Z.ltb_lt in Hi, Hj. lia.
  - exfalso. symmetry in H. now apply decimal_digits_no_minus in H.
  - exfalso. now apply decimal_digits_no_minus in H.
  - apply decimal_digits_inj in H. apply Z.ltb_ge in Hi, Hj. lia.
Qed.

Variable queryBuilder queryBuilder' : QueryBuilder.

Lemma findById_run (qb : QueryBuilder) (params : FindByIdParams) (env : Umgebung) :
  findById qb params env
  = (let p := {| build_id := param_id params;
                 build_mitAbbildungen :=
                   match param_mitAbbildungen params with
                   | Some b => b
                   | None => false
                   end |} in
     ([BuildId p; GetOne],
      match hd_error (buildId qb p (datenbank env)) with
      | Some buch => inr buch
      | None =>
          inl (NotFoundException
                 ("Es gibt kein Buch mit der ID "
                  ++ JS.integer_toString (param_id params) ++ "."))
      end)).
Proof.
  cbv zeta. unfold findById, bind, call_buildId, getOne, ret, throw.
  destruct (hd_error _); reflexivity.
Qed.

(** X9: [findById] over any query builder, for an id within the safe
    integers: one query is built, with the given id and the flag (false when
    omitted), and run once; the Book returned is the first row of that
    query, and the [NotFoundException], whose message carries the decimal
    notation of the id, is thrown exactly when the query has no row. *)
Theorem findById_first_row_or_not_found (params : FindByIdParams) (env : Umgebung) :
  Z.abs (param_id params) <= JS.MAX_SAFE_INTEGER ->
  let p := {| build_id := param_id params;
              build_mitAbbildungen :=
                match param_mitAbbildungen params with
                | Some b => b
                | None => false
                end |} in
  spur (findById queryBuilder params env) = [BuildId p; GetOne]
  /\ (forall buch,
        ausgang (findById queryBuilder params env) = inr buch
        <-> hd_error (buildId queryBuilder p (datenbank env)) = Some buch)
  /\ (exists s,
        ganzzahl_text s (param_id params)
        /\ forall message,
             ausgang (findById queryBuilder params env)
             = inl (NotFoundException message)
             <-> buildId queryBuilder p (datenbank env) = []
                 /\ message = "Es gibt kein Buch mit der ID " ++ s ++ ".").
Proof.
  intros _ p. rewrite findById_run. cbv zeta. fold p.
  cbn [spur ausgang fst snd].
  split; [reflexivity |]. split.
  - intros buch.
    destruct (buildId queryBuilder p (datenbank env)) as [| b rest];
      cbn [hd_error]; split; intros H; try discriminate H;
      injection H as <-; reflexivity.
  - exists (JS.integer_toString (param_id params)).
    split; [apply ganzzahl_text_integer_toString |].
    intros message.
    destruct (buildId queryBuilder p (datenbank env)) as [| b rest];
      cbn [hd_error]; split.
    + intros H. injection H as <-. split; reflexivity.
    + intros [_ ->]. reflexivity.
    + discriminate.
    + intros [H _]. discriminate H.
Qed.

(** X10: the [NotFoundException] of [findById] tells which id was looked
    up: two lookups of ids within the safe integers, by whatever query
    builder and on whatever store, that fail with the same
    [NotFoundException] were lookups of the same id. *)
Theorem findById_failure_identifies_id
    (params params' : FindByIdParams) (env env' : Umgebung) (message : string) :
  Z.abs (param_id params) <= JS.MAX_SAFE_INTEGER ->
  Z.abs (param_id params') <= JS.MAX_SAFE_INTEGER ->
  ausgang (findById queryBuilder params env) = inl (NotFoundException message) ->
  ausgang (findById queryBuilder' params' env') = inl (NotFoundException message) ->
  param_id params = param_id params'.
Proof.
  intros _ _. rewrite !findById_run. cbv zeta. cbn [ausgang snd].
  destruct (hd_error _); [discriminate |].
  destruct (hd_error _); [discriminate |].
  intros H1 H2. rewrite <- H1 in H2. injection H2 as H.
  apply append_cancel_point in H.
  symmetry. now apply integer_toString_inj.
Qed.

End FindByIdMore.


(* ===================================================================== *)
(** * Further properties of the resolver *)
(* ===================================================================== *)

Section ResolverMore.

Variable buchProps : list string.
Variable queryBuilder : QueryBuilder.
Variable JSON_stringify : Suchkriterien -> string.

(** Returning the awaited value adds no call and changes no outcome. *)
Lemma bind_ret_r {A : Type} (m : Aktion A) (env : Umgebung) :
  bind m (fun a => ret a) env = m env.
Proof.
  unfold bind, ret. destruct (m env) as [t [e | a]]; [reflexivity |].
  now rewrite app_nil_r.
Qed.

(** X7: the resolver of 'buecher' gives exactly what the read service
    gives: the same calls and the same list or failure. *)
Theorem resolver_find_is_service_find
    (filter : option Suchkriterien) (env : Umgebung) :
  Resolver.find buchProps queryBuilder JSON_stringify filter env
  = find buchProps queryBuilder JSON_stringify filter env.
Proof. unfold Resolver.find. apply bind_ret_r. Qed.

(** X8: a filter with keys of [BuchFilter] only ('titel', 'art',
    'lieferbar', 'rating') passes validation as soon as these four names are
    properties of the entity: the query 'buecher' then never fails with
    'Ungueltige Suchkriterien'. *)
Theorem resolver_find_BuchFilter_valid (filter : Suchkriterien) (env : Umgebung) :
  incl ["titel"; "art"; "lieferbar"; "rating"] buchProps ->
  incl (Object_keys filter) ["titel"; "art"; "lieferbar"; "rating"] ->
  ausgang (Resolver.find buchProps queryBuilder JSON_stringify (Some filter) env)
  <> inl (NotFoundException "Ungueltige Suchkriterien").
Proof.
  intros Hprops Hkeys. unfold Resolver.find. rewrite bind_ret_r.
  assert (Hok : checkKeys buchProps (Object_keys filter) = true).
  { apply checkKeys_true. intros key Hin. left. apply Hprops, Hkeys, Hin. }
  destruct (Object_keys filter) eqn:E.
  - destruct filter; [| discriminate E]. discriminate.
  - rewrite <- E in Hok.
    rewrite (find_validated_run buchProps queryBuilder JSON_stringify filter env);
      [| rewrite E; discriminate | exact Hok].
    cbn [ausgang snd].
    destruct (build queryBuilder filter (datenbank env)); discriminate.
Qed.

End ResolverMore.

(* ===================================================================== *)
(** * Further properties of the image lookup *)
(* ===================================================================== *)

Section ImageMore.

Lemma loadImageFromFileSystem_run (imageName : string) (env : Umgebung) :
  loadImageFromFileSystem imageName env =
    match dateisystem env (image_path imageName) with
    | inr bytes => ([ReadFile (image_path imageName)], inr bytes)
    | inl error =>
        ([ReadFile (image_path imageName);
          ConsoleError ("Error loading image: " ++ message_of error)],
         inl (NotFoundException ("Image not found for name: " ++ imageName)))
    end.
Proof.
  unfold loadImageFromFileSystem. fold (image_path imageName).
  unfold bind, try_catch, fs_readFile, console_error, throw, ret.
  destruct (dateisystem env (image_path imageName)); reflexivity.
Qed.

(** X12: the two wrappers add nothing to [loadImageFromFileSystem]: their checks
    [if (!imageBuffer)] never fire, so the three methods make the same calls
    and have the same outcome, and the message 'No image found for name'
    of [findImageByName] is never thrown. *)
Theorem image_wrappers_are_transparent (imageName : string) (env : Umgebung) :
  loadImageFromServer imageName env = loadImageFromFileSystem imageName env
  /\ findImageByName imageName env = loadImageFromFileSystem imageName env
  /\ ausgang (findImageByName imageName env)
     <> inl (NotFoundException ("No image found for name: " ++ imageName)).
Proof.
  assert (H : findImageByName imageName env = loadImageFromFileSystem imageName env).
  { now rewrite findImageByName_run, loadImageFromFileSystem_run. }
  split; [| split].
  - rewrite loadImageFromFileSystem_run.
    unfold loadImageFromServer, bind. rewrite loadImageFromFileSystem_run.
    destruct (dateisystem env (image_path imageName)); reflexivity.
  - exact H.
  - rewrite findImageByName_run.
    destruct (dateisystem env (image_path imageName)); cbn [ausgang snd];
      discriminate.
Qed.

(** X13: the calls of the image lookup: the one file is read once; [console.error]
    is called exactly when the read fails, with the message of the file
    system's error, which the caller does not get to see; no query is built
    or run, and the database has no influence. *)
Theorem findImageByName_calls (imageName : string) (env : Umgebung) :
  spur (findImageByName imageName env)
  = ReadFile (image_path imageName)
    :: match dateisystem env (image_path imageName) with
       | inr _ => []
       | inl error => [ConsoleError ("Error loading image: " ++ message_of error)]
       end
  /\ existsb ist_query (spur (findImageByName imageName env)) = false
  /\ (forall db,
        findImageByName imageName (mkUmgebung db (dateisystem env))
        = findImageByName imageName env)
  /\ (forall e,
        ausgang (findImageByName imageName env) = inl e ->
        e = NotFoundException ("Image not found for name: " ++ imageName)).
Proof.
  split; [| split; [| split]].
  - rewrite findImageByName_run.
    destruct (dateisystem env (image_path imageName)); reflexivity.
  - rewrite findImageByName_run.
    destruct (dateisystem env (image_path imageName)); reflexivity.
  - intros db. now rewrite !findImageByName_run.
  - intros e. rewrite findImageByName_run.
    destruct (dateisystem env (image_path imageName)); cbn [ausgang snd];
      intros H; [now injection H as <- | discriminate H].
Qed.

Lemma findImage_run (imageInput : ImageInput) (env : Umgebung) :
  Resolver.findImage imageInput env =
    match dateisystem env (image_path (input_imageName imageInput)) with
    | inr bytes =>
        ([ReadFile (image_path (input_imageName imageInput))],
         inr {| output_imageName := input_imageName imageInput;
                output_image := Base64.encode bytes |})
    | inl error =>
        ([ReadFile (image_path (input_imageName imageInput));
          ConsoleError ("Error loading image: " ++ message_of error)],
         inl (NotFoundException
                ("Image not found for name: " ++ input_imageName imageInput)))
    end.
Proof.
  unfold Resolver.findImage, bind. rewrite findImageByName_run.
  destruct (dateisystem env (image_path (input_imageName imageInput)));
    reflexivity.
Qed.

(** X14: the resolver of 'findImage' makes the calls of the image lookup and
    no other; the name is returned as it came in, the image is the Base64
    text of the bytes of the file, and a failed read surfaces as the
    service's [NotFoundException]. *)
Theorem resolver_findImage_run (imageInput : ImageInput) (env : Umgebung) :
  let imageName := input_imageName imageInput in
  spur (Resolver.findImage imageInput env) = spur (findImageByName imageName env)
  /\ ausgang (Resolver.findImage imageInput env)
     = match dateisystem env (image_path imageName) with
       | inr bytes =>
           inr {| output_imageName := imageName;
                  output_image := Base64.encode bytes |}
       | inl _ =>
           inl (NotFoundException ("Image not found for name: " ++ imageName))
       end.
Proof.
  intros imageName. rewrite findImage_run, findImageByName_run. fold imageName.
  destruct (dateisystem env (image_path imageName)); split; reflexivity.
Qed.

End ImageMore.

(* ===================================================================== *)
(** * Base64 text of an image *)
(* ===================================================================== *)

Section Base64Props.

(** Induction over a list of bytes in groups of three. *)
Lemma list_ind3 {A : Type} (P : list A -> Prop) :
  P [] -> (forall a, P [a]) -> (forall a b, P [a; b]) ->
  (forall a b c rest, P rest -> P (a :: b :: c :: rest)) ->
  forall l, P l.
Proof.
  intros H0 H1 H2 H3 l.
  assert (H : P l /\ (forall a, P (a :: l)) /\ (forall a b, P (a :: b :: l))).
  { induction l as [| x l [IH0 [IH1 IH2]]].
    - repeat split; auto.
    - repeat split; auto. }
  exact (proj1 H).
Qed.

Lemma encode_length (bytes : list Byte.byte) :
  String.length (Base64.encode bytes) = (4 * ((List.length bytes + 2) / 3))%nat.
Proof.
  induction bytes as [| a | a b | a b c rest IH] using list_ind3;
    try reflexivity.
  cbn [Base64.encode String.length List.length]. rewrite IH.
  replace (S (S (S (List.length rest))) + 2)%nat
    with (List.length rest + 2 + 1 * 3)%nat by lia.
  rewrite Nat.div_add by lia. lia.
Qed.

Lemma sextett_In (i : N) : (i < 64)%N -> In i sextette.
Proof.
  intros H. replace i with (N.of_nat (N.to_nat i)) by apply N2Nat.id.
  change sextette with (map N.of_nat (seq 0 64)).
  apply in_map, in_seq. lia.
Qed.

Lemma stelle_zeichen (i : N) : (i < 64)%N -> stelle (Base64.zeichen i) = Some i.
Proof.
  intros H. apply sextett_In in H.
  assert (Hall : forallb (fun j => match stelle (Base64.zeichen j) with
                                   | Some k => (k =? j)%N
                                   | None => false
                                   end) sextette = true) by (vm_compute; reflexivity).
  rewrite forallb_forall in Hall. specialize (Hall i H).
  destruct (stelle (Base64.zeichen i)) as [k |]; [| discriminate].
  apply N.eqb_eq in Hall. now subst.
Qed.

Lemma zeichen_inj (i j : N) :
  (i < 64)%N -> (j < 64)%N -> Base64.zeichen i = Base64.zeichen j -> i = j.
Proof.
  intros Hi Hj E. apply stelle_zeichen in Hi, Hj. rewrite E in Hi. congruence.
Qed.

Lemma zeichen_not_pad (i : N) : (i < 64)%N -> Base64.zeichen i <> "="%char.
Proof.
  intros H E. apply stelle_zeichen in H. rewrite E in H.
  vm_compute in H. discriminate H.
Qed.

Lemma to_N_lt (b : Byte.byte) : (Byte.to_N b < 256)%N.
Proof. pose proof (Byte.to_N_bounded b). lia. Qed.

Lemma to_N_inj (a b : Byte.byte) : Byte.to_N a = Byte.to_N b -> a = b.
Proof.
  intros E. pose proof (Byte.of_to_N a) as Ha. pose proof (Byte.of_to_N b) as Hb.
  rewrite E in Ha. congruence.
Qed.

Local Open Scope N_scope.

(** Quotient and remainder of a division by a constant, as fresh numbers. *)
Ltac teile x k :=
  let q := fresh "q" in
  let r := fresh "r" in
  pose proof (N.div_mod x k ltac:(discriminate));
  pose proof (N.mod_lt x k ltac:(discriminate));
  set (q := x / k) in *; set (r := x mod k) in *; clearbody q r.

Lemma sextett_bounds (x y : N) :
  x < 256 -> y < 256 ->
  x / 4 < 64 /\ (x mod 4) * 16 + y / 16 < 64 /\ (x mod 4) * 16 < 64
  /\ (x mod 16) * 4 + y / 64 < 64 /\ (x mod 16) * 4 < 64 /\ x mod 64 < 64.
Proof.
  intros Hx Hy. teile x 4. teile y 16. teile x 16. teile y 64. teile x 64. lia.
Qed.

Lemma gruppe_inj (x y z x' y' z' : N) :
  x < 256 -> y < 256 -> z < 256 -> x' < 256 -> y' < 256 -> z' < 256 ->
  x / 4 = x' / 4 ->
  (x mod 4) * 16 + y / 16 = (x' mod 4) * 16 + y' / 16 ->
  (y mod 16) * 4 + z / 64 = (y' mod 16) * 4 + z' / 64 ->
  z mod 64 = z' mod 64 ->
  x = x' /\ y = y' /\ z = z'.
Proof.
  intros Hx Hy Hz Hx' Hy' Hz'.
  teile x 4. teile y 16. teile z 64. teile x' 4. teile y' 16. teile z' 64.
  intros E0 E1 E2 E3. lia.
Qed.

Lemma gruppe1_inj (x x' : N) :
  x / 4 = x' / 4 -> (x mod 4) * 16 = (x' mod 4) * 16 -> x = x'.
Proof. teile x 4. teile x' 4. intros E0 E1. lia. Qed.

Lemma gruppe2_inj (x y x' y' : N) :
  y < 256 -> y' < 256 ->
  x / 4 = x' / 4 ->
  (x mod 4) * 16 + y / 16 = (x' mod 4) * 16 + y' / 16 ->
  (y mod 16) * 4 = (y' mod 16) * 4 ->
  x = x' /\ y = y'.
Proof.
  intros Hy Hy'. teile x 4. teile y 16. teile x' 4. teile y' 16.
  intros E0 E1 E2. lia.
Qed.

Lemma sextett_lt (a b : Byte.byte) :
  Byte.to_N a / 4 < 64
  /\ (Byte.to_N a mod 4) * 16 + Byte.to_N b / 16 < 64
  /\ (Byte.to_N a mod 4) * 16 < 64
  /\ (Byte.to_N a mod 16) * 4 + Byte.to_N b / 64 < 64
  /\ (Byte.to_N a mod 16) * 4 < 64
  /\ Byte.to_N a mod 64 < 64.
Proof. apply sextett_bounds; apply to_N_lt. Qed.

Ltac sextett :=
  match goal with
  | |- Byte.to_N ?a / 4 < 64 => apply (sextett_lt a a)
  | |- (Byte.to_N ?a mod 4) * 16 + Byte.to_N ?b / 16 < 64 => apply (sextett_lt a b)
  | |- (Byte.to_N ?a mod 4) * 16 < 64 => apply (sextett_lt a a)
  | |- (Byte.to_N ?a mod 16) * 4 + Byte.to_N ?b / 64 < 64 => apply (sextett_lt a b)
  | |- (Byte.to_N ?a mod 16) * 4 < 64 => apply (sextett_lt a a)
  | |- Byte.to_N ?a mod 64 < 64 => apply (sextett_lt a a)
  end.

(** Different byte sequences have different Base64 texts. *)
Lemma encode_inj (l1 : list Byte.byte) :
  forall l2, Base64.encode l1 = Base64.encode l2 -> l1 = l2.
Proof.
  induction l1 as [| a | a b | a b c rest IH] using list_ind3;
    intros [| a' [| b' [| c' rest']]] H; cbn [Base64.encode] in H;
    try reflexivity; try discriminate H.
  - (* one byte on both sides *)
    injection H as E0 E1.
    apply zeichen_inj in E0, E1; try sextett.
    f_equal. apply to_N_inj. now apply gruppe1_inj.
  - (* one byte and two bytes *)
    injection H as _ _ E2. exfalso. symmetry in E2. revert E2.
    apply zeichen_not_pad. sextett.
  - (* one byte and three or more *)
    injection H as _ _ E2 _. exfalso. symmetry in E2. revert E2.
    apply zeichen_not_pad. sextett.
  - (* two bytes and one byte *)
    injection H as _ _ E2. exfalso. revert E2.
    apply zeichen_not_pad. sextett.
  - (* two bytes on both sides *)
    injection H as E0 E1 E2.
    apply zeichen_inj in E0, E1, E2; try sextett.
    destruct (gruppe2_inj _ _ _ _ (to_N_lt b) (to_N_lt b') E0 E1 E2) as [Ea Eb].
    apply to_N_inj in Ea, Eb. now subst.
  - (* two bytes and three or more *)
    injection H as _ _ _ E3. exfalso. symmetry in E3. revert E3.
    apply zeichen_not_pad. sextett.
  - (* three or more and one byte *)
    injection H as _ _ E2 _. exfalso. revert E2.
    apply zeichen_not_pad. sextett.
  - (* three or more and two bytes *)
    injection H as _ _ _ E3. exfalso. revert E3.
    apply zeichen_not_pad. sextett.
  - (* three or more on both sides *)
    injection H as E0 E1 E2 E3 Erest.
    apply zeichen_inj in E0, E1, E2, E3; try sextett.
    destruct (gruppe_inj _ _ _ _ _ _ (to_N_lt a) (to_N_lt b) (to_N_lt c)
                (to_N_lt a') (to_N_lt b') (to_N_lt c') E0 E1 E2 E3)
      as [Ea [Eb Ec]].
    apply to_N_inj in Ea, Eb, Ec. subst. do 3 f_equal.
    now apply IH.
Qed.

Local Close Scope N_scope.

Ltac b64_alphabet := right; eexists; (split; [| reflexivity]); sextett.
Ltac b64_pad := left; reflexivity.

(** X15: the Base64 text of n bytes has 4 * ceil(n / 3) characters, each of
    them a character of the alphabet or the padding character '='. *)
Theorem Buffer_toString_base64_wellformed (bytes : Buffer) :
  String.length (Buffer_toString_base64 bytes)
  = (4 * ((List.length bytes + 2) / 3))%nat
  /\ Forall (fun ch => ch = "="%char
                       \/ exists i, (i < 64)%N /\ ch = Base64.zeichen i)
       (list_ascii_of_string (Buffer_toString_base64 bytes)).
Proof.
  unfold Buffer_toString_base64. split; [apply encode_length |].
  induction bytes as [| a | a b | a b c rest IH] using list_ind3;
    cbn [Base64.encode list_ascii_of_string].
  - constructor.
  - constructor; [b64_alphabet |]. constructor; [b64_alphabet |].
    constructor; [b64_pad |]. constructor; [b64_pad |]. constructor.
  - constructor; [b64_alphabet |]. constructor; [b64_alphabet |].
    constructor; [b64_alphabet |]. constructor; [b64_pad |]. constructor.
  - constructor; [b64_alphabet |]. constructor; [b64_alphabet |].
    constructor; [b64_alphabet |]. constructor; [b64_alphabet |].
    exact IH.
Qed.

(** X16: the image text returned by the resolver of 'findImage' determines
    the file: two successful answers with the same image text were read from
    files with the same bytes. *)
Theorem findImage_image_determines_bytes
    (input input' : ImageInput) (env env' : Umgebung) (out out' : ImageOutput) :
  ausgang (Resolver.findImage input env) = inr out ->
  ausgang (Resolver.findImage input' env') = inr out' ->
  output_image out = output_image out' ->
  dateisystem env (image_path (input_imageName input))
  = dateisystem env' (image_path (input_imageName input')).
Proof.
  rewrite !findImage_run.
  destruct (dateisystem env (image_path (input_imageName input)))
    as [e | bytes]; [discriminate |].
  destruct (dateisystem env' (image_path (input_imageName input')))
    as [e' | bytes']; [discriminate |].
  cbn [ausgang snd]. intros H1 H2 E.
  injection H1 as <-. injection H2 as <-. cbn [output_image] in E.
  f_equal. now apply encode_inj.
Qed.

End Base64Props.


(* ===================================================================== *)
(** * Further properties of the field rabatt *)
(* ===================================================================== *)

Section RabattMore.

Variable Number_toString : JS.number -> string.

(** X18: a discount that is not a finite number is not rendered as a percentage
    with two decimals: the field shows 'NaN', 'Infinity' or '-Infinity'
    before the suffix. *)
Theorem rabatt_not_finite (buch : Buch) (short : option bool) (r : JS.number) :
  rabatt buch = Some r ->
  JS.Number_isFinite r = false ->
  Resolver.rabatt Number_toString buch short
  = match r with
    | S754_infinity false => "Infinity"
    | S754_infinity true => "-Infinity"
    | _ => "NaN"
    end
    ++ " " ++ match short with Some false => "Prozent" | _ => "%" end.
Proof.
  intros Hr Hfin. unfold Resolver.rabatt. rewrite Hr, hundert_binary64.
  destruct r as [s | [|] | | s m e]; try discriminate Hfin;
    destruct short as [[|] |]; reflexivity.
Qed.

(** X19: a Book without a discount, or with the discount zero of either sign, is
    rendered as '0.00' before the suffix. *)
Theorem rabatt_undefined_or_zero (buch : Buch) (short : option bool) :
  rabatt buch = None \/ (exists s, rabatt buch = Some (S754_zero s)) ->
  Resolver.rabatt Number_toString buch short
  = "0.00 " ++ match short with Some false => "Prozent" | _ => "%" end.
Proof.
  intros [H | [s H]]; unfold Resolver.rabatt; rewrite H;
    destruct short as [[|] |]; try destruct s; reflexivity.
Qed.

(** X17: the field for every discount whose product with 100 is finite and
    of magnitude below 10^21, negative discounts and discounts above 1
    included: a minus sign when the product is negative, the integer digits
    of the nearest hundredth of its magnitude, a point, two decimals, a
    blank and the suffix. *)
Theorem rabatt_finite_product (buch : Buch) (short : option bool) :
  let x := JS.Number_mul
             (match rabatt buch with Some r => r | None => JS.Number_of_Z 0 end)
             (JS.Number_of_Z 100) in
  let n := JS.toFixed_n x 2 in
  JS.Number_isFinite x = true ->
  JS.at_least_1e21 x = false ->
  (200 * JS.abs_num x - JS.abs_den x
     < 2 * n * JS.abs_den x
     <= 200 * JS.abs_num x + JS.abs_den x)
  /\ Resolver.rabatt Number_toString buch short
     = (if JS.is_negative x then "-" else "")
       ++ JS.decimal_digits (Z.to_N n / 100) ++ "."
       ++ String (JS.digit_char ((Z.to_N n / 10) mod 10))
            (String (JS.digit_char (Z.to_N n mod 10)) EmptyString)
       ++ " "
       ++ match short with Some false => "Prozent" | _ => "%" end.
Proof.
  intros x n Hfin Hsmall. split.
  - destruct (toFixed_n_nearest x 2) as [_ H].
    change (10 ^ Z.of_nat 2) with 100 in H. subst n. lia.
  - apply (rabatt_rendered_finite Number_toString buch short Hfin Hsmall).
Qed.

End RabattMore.

(* ===================================================================== *)
(** * Concrete runs of the further properties *)
(* ===================================================================== *)

(** Membership in a list of literals. *)
Ltac in_liste := simpl; repeat (first [left; reflexivity | right]).

Lemma find_filtered_result_nonempty_witness :
  [Beispiel.buch1] <> [].
Proof.
  apply (find_filtered_result_nonempty Beispiel.buchProps Beispiel.queryBuilder
           Beispiel.JSON_stringify [("titel", WString "Java")] Beispiel.env
           [Beispiel.buch1]);
    [discriminate | reflexivity].
Defined.

Lemma find_NotFound_only_for_criteria_witness :
  exists k,
    Some [("titel", WString "Gamma")] = Some k /\ Object_keys k <> []
    /\ (("Keine Buecher gefunden: {titel}" = "Ungueltige Suchkriterien"
         /\ checkKeys Beispiel.buchProps (Object_keys k) = false)
        \/ ("Keine Buecher gefunden: {titel}"
            = "Keine Buecher gefunden: " ++ Beispiel.JSON_stringify k
            /\ checkKeys Beispiel.buchProps (Object_keys k) = true
            /\ build Beispiel.queryBuilder k (datenbank Beispiel.env) = [])).
Proof.
  apply (find_NotFound_only_for_criteria Beispiel.buchProps Beispiel.queryBuilder
           Beispiel.JSON_stringify (Some [("titel", WString "Gamma")])
           Beispiel.env).
  reflexivity.
Defined.

Lemma checkKeys_monotone_witness :
  checkKeys (Beispiel.buchProps ++ ["untertitel"]) ["titel"; "typescript"] = true.
Proof.
  apply (checkKeys_monotone Beispiel.buchProps
           (Beispiel.buchProps ++ ["untertitel"]) ["titel"; "typescript"]).
  - apply incl_appl, incl_refl.
  - reflexivity.
Defined.

Lemma resolver_find_BuchFilter_valid_witness :
  ausgang (Resolver.find Beispiel.buchProps Beispiel.queryBuilder
             Beispiel.JSON_stringify
             (Some [("titel", WString "Gamma"); ("lieferbar", WBoolean true)])
             Beispiel.env)
  <> inl (NotFoundException "Ungueltige Suchkriterien").
Proof.
  apply (resolver_find_BuchFilter_valid Beispiel.buchProps Beispiel.queryBuilder
           Beispiel.JSON_stringify
           [("titel", WString "Gamma"); ("lieferbar", WBoolean true)]
           Beispiel.env).
  - intros key Hin. simpl in Hin.
    destruct Hin as [<- | [<- | [<- | [<- | []]]]]; in_liste.
  - intros key Hin. simpl in Hin.
    destruct Hin as [<- | [<- | []]]; in_liste.
Defined.

Lemma safe_integer_999 : Z.abs 999 <= JS.MAX_SAFE_INTEGER.
Proof. discriminate. Defined.

Lemma findById_first_row_or_not_found_witness :
  ausgang (findById Beispiel.queryBuilder
             {| param_id := 999; param_mitAbbildungen := None |} Beispiel.env)
  = inl (NotFoundException "Es gibt kein Buch mit der ID 999.")
  /\ ausgang (findById Beispiel.queryBuilder
                {| param_id := 20; param_mitAbbildungen := None |} Beispiel.env)
     = inr Beispiel.buch2.
Proof.
  split.
  - destruct (findById_first_row_or_not_found Beispiel.queryBuilder
                {| param_id := 999; param_mitAbbildungen := None |} Beispiel.env
                safe_integer_999) as [_ [_ [s [Hs H]]]].
    apply ganzzahl_text_unique in Hs. subst s. apply H. split; reflexivity.
  - assert (H20 : Z.abs 20 <= JS.MAX_SAFE_INTEGER) by discriminate.
    destruct (findById_first_row_or_not_found Beispiel.queryBuilder
                {| param_id := 20; param_mitAbbildungen := None |} Beispiel.env
                H20) as [_ [H _]].
    apply H. reflexivity.
Defined.

Lemma findById_failure_identifies_id_witness :
  param_id {| param_id := 999; param_mitAbbildungen := None |}
  = param_id {| param_id := 999; param_mitAbbildungen := Some true |}.
Proof.
  apply (findById_failure_identifies_id Beispiel.queryBuilder Beispiel.queryBuilder
           {| param_id := 999; param_mitAbbildungen := None |}
           {| param_id := 999; param_mitAbbildungen := Some true |}
           Beispiel.env Beispiel.leere_env
           "Es gibt kein Buch mit der ID 999.");
    [exact safe_integer_999 | exact safe_integer_999 | |]; vm_compute; reflexivity.
Defined.

Lemma findById_returns_the_book_or_not_found_witness :
  ausgang (findById Beispiel.queryBuilder
             {| param_id := 1; param_mitAbbildungen := None |} Beispiel.env)
  = inr Beispiel.buch1
  /\ ausgang (findById Beispiel.queryBuilder
                {| param_id := 999; param_mitAbbildungen := None |} Beispiel.env)
     = inl (NotFoundException "Es gibt kein Buch mit der ID 999.").
Proof.
  split.
  - assert (Hid : 0 < 1 <= JS.MAX_SAFE_INTEGER) by (split; [reflexivity | discriminate]).
    destruct (findById_returns_the_book_or_not_found Beispiel.erfuellt
                Beispiel.env 1 None Hid beispiel_ids_unique) as [_ [H _]].
    exact (H Beispiel.buch1 (or_introl eq_refl) eq_refl eq_refl).
  - assert (Hid : 0 < 999 <= JS.MAX_SAFE_INTEGER) by (split; [reflexivity | discriminate]).
    destruct (findById_returns_the_book_or_not_found Beispiel.erfuellt
                Beispiel.env 999 None Hid beispiel_ids_unique) as [_ [_ [s [Hs H]]]].
    apply dezimaldarstellung_unique in Hs. subst s. apply H.
    intros [b [Hin Hb]]. simpl in Hin.
    destruct Hin as [<- | [<- | []]]; discriminate Hb.
Defined.

Lemma findById_mitAbbildungen_witness :
  (exists r,
     ausgang (findById Beispiel.queryBuilder
                {| param_id := 1; param_mitAbbildungen := Some true |} Beispiel.env)
     = inr r
     /\ id r = 1 /\ titel r = "Java und TypeScript"
     /\ abbildungen r
        = Some [ {| abbildung_id := 1; abbildung_buch_id := 1 |};
                 {| abbildung_id := 3; abbildung_buch_id := 1 |} ])
  /\ ausgang (findById Beispiel.queryBuilder
                {| param_id := 1; param_mitAbbildungen := Some false |} Beispiel.env)
     = inr Beispiel.buch1.
Proof.
  assert (Hid : 0 < id Beispiel.buch1 <= JS.MAX_SAFE_INTEGER)
    by (split; [reflexivity | discriminate]).
  destruct (findById_mitAbbildungen Beispiel.erfuellt Beispiel.env Beispiel.buch1
              Hid beispiel_ids_unique (or_introl eq_refl))
    as [[r [bilder [Hr [Hsp [Hab [Hbilder _]]]]]] [[r' [Hr' [Hsp' Hab']]] _]].
  split.
  - exists r. split; [exact Hr |].
    destruct Hsp as (Hi & _ & _ & _ & _ & _ & _ & _ & _ & _ & Ht).
    split; [exact Hi |]. split; [exact Ht |].
    rewrite Hab, Hbilder. reflexivity.
  - change (findById Beispiel.queryBuilder
              {| param_id := 1; param_mitAbbildungen := Some false |} Beispiel.env)
      with (findById (SpecQueryBuilder.queryBuilder Beispiel.erfuellt)
              {| param_id := id Beispiel.buch1; param_mitAbbildungen := Some false |}
              Beispiel.env).
    rewrite Hr'. f_equal. apply buch_eq; [exact Hsp' | exact Hab'].
Defined.

Lemma findImage_image_determines_bytes_witness :
  dateisystem Beispiel.env (image_path "cover.png")
  = dateisystem Grenzfall.env (image_path "titel.png").
Proof.
  apply (findImage_image_determines_bytes
           {| input_imageName := "cover.png" |} {| input_imageName := "titel.png" |}
           Beispiel.env Grenzfall.env
           {| output_imageName := "cover.png"; output_image := "iVBORw==" |}
           {| output_imageName := "titel.png"; output_image := "iVBORw==" |});
    reflexivity.
Defined.

Lemma rabatt_finite_product_witness :
  Resolver.rabatt Beispiel.Number_toString Grenzfall.buch_negativ None
  = "-50.00 %".
Proof.
  destruct (rabatt_finite_product Beispiel.Number_toString
              Grenzfall.buch_negativ None eq_refl eq_refl) as [_ H].
  rewrite H. reflexivity.
Defined.

Lemma rabatt_not_finite_witness :
  Resolver.rabatt Beispiel.Number_toString Grenzfall.buch_unendlich (Some false)
  = "Infinity Prozent".
Proof.
  apply (rabatt_not_finite Beispiel.Number_toString Grenzfall.buch_unendlich
           (Some false) (S754_infinity false));
    reflexivity.
Defined.

Lemma rabatt_undefined_or_zero_witness :
  Resolver.rabatt Beispiel.Number_toString Beispiel.buch2 None = "0.00 %".
Proof.
  apply (rabatt_undefined_or_zero Beispiel.Number_toString Beispiel.buch2 None).
  left. reflexivity.
Defined.
